(* ===== verification/_CoqProject ===== *)
-Q . S2P
Prelude.v
PyBuiltins.v
Config.v
Storage.v
Session.v
Models.v
Schemas.v
Handlers.v
Crud.v
Routing.v
OpenAPI.v
App.v
Contract.v
Traces.v
