(* ===== verification/Prelude.v ===== *)
(** * A verification development of gardeshgary_SQL

    gardeshgary_SQL is a FastAPI service over PostgreSQL with four
    independent resources (categories, places, images, videos).  Each
    resource is a SQLAlchemy model ([src/models.py]), a pydantic request
    schema ([src/main.py] lines 30-56) and five HTTP handlers (create, list,
    get, update, delete; [src/main.py] lines 59-220).  A request runs
    through a fixed chain: routing (Starlette) -> decoding of the JSON
    body and validation of the path parameter and the body (pydantic v1,
    the [orm_mode] style of the schemas) -> one SQLAlchemy session opened
    by [get_db] (lines 22-27) -> the handler's ORM calls (add/commit/
    refresh, query/first, attribute assignment, delete) -> serialisation
    of the returned ORM object through the handler's [response_model] ->
    [db.close()].  [Base.metadata.create_all] runs once, when
    [src/models.py] is imported.

    ** Files (in dependency order) and what each models

    - [Prelude]: this header; the state/error monad [ST] in which the
      handlers are written, with its run lemmas, the equations of
      [String.append], the hint databases [crud] and [crud_rw] and the
      tactic [st_run].
    - [PyBuiltins]: Python's [str(int)] (pydantic's [str_validator] on an
      integer) and [int(str)] (pydantic's [int_validator] on a path
      segment: whitespace, sign, '_' separators, the 4300-character
      limit), ASCII only.
    - [Config]: where the sessions connect ([src/database.py] lines 4-21,
      [src/main.py] lines 13-19): the two URLs, SQLAlchemy's rfc1738 URL
      parser as [create_engine] runs it, the two engines and sessionmakers, [get_connection]'s keyword
      arguments, and the libpq connection each one reaches.
    - [Storage]: one PostgreSQL table with a [SERIAL] primary key: rows
      keyed by id, the sequence behind the key (int4, so at most
      2147483647), INSERT/SELECT/UPDATE/DELETE as the ORM emits them,
      psycopg2's refusal of text it cannot send (a NUL character or a
      lone surrogate); the table invariant.
    - [Session]: a SQLAlchemy [Session] with [autoflush=False],
      [autocommit=False] and [expire_on_commit]: an object heap (the
      Python objects the handlers hold), object states
      (transient/pending/persistent/deleted/detached), the identity map,
      flush at commit with rollback on error (the sequence is not rolled
      back), expiry and refresh; and [get_db]'s open/close around a
      handler.
    - [Models]: the four model classes of [src/models.py] as records
      (nullable columns as [option string]), their [Row] instances, the
      database of four tables and [Base.metadata.create_all].
    - [Schemas]: JSON values, the four pydantic schemas of [src/main.py],
      pydantic v1's [str] validation of request bodies and the
      [response_model] serialisation of the returned ORM objects.
    - [Handlers]: the twenty handlers of [src/main.py], one definition
      each, statement by statement in the session monad; the index
      [resource] that groups them, and their behaviour under [get_db].
    - [Crud]: the CRUD contract of the spec as a relation [spec_step] on
      rows, one request as direct table statements ([table_step]), and
      sequences of requests ([run_ops]).
    - [Routing]: the route table as the decorators write it (after
      FastAPI's four documentation routes) and Starlette's router:
      [compile_path], regex matching, first full match, 405 on a partial
      match, the trailing-slash 307 redirect, 404.
    - [OpenAPI]: the document [/openapi.json] serves, as FastAPI's
      [get_openapi] builds it from the decorators, the function names and
      the schema classes (operationIds, summaries, parameters, request
      bodies, the 200 and 422 responses, the sorted components), and a
      JSON Schema reading of it ([validate]) as a client does.
    - [App]: one request over the whole database ([handle]): routing,
      FastAPI's reading of the body (the [Content-Type] test,
      [json.loads], the 400 for a body it cannot read), validation with pydantic's error lists (422), the
      handler under [get_db] on its table, exceptions and serialisation
      to a response; [serve] runs a sequence of requests from [start]
      ([create_all] on an empty database).
    - [Contract]: the types a client may rely on (JSON types, the
      [response_model] of each decorator, FastAPI's
      [HTTPValidationError], the [{"detail": str}] of an
      [HTTPException]) and what a dispatch may answer ([conforms]).
    - [Traces]: properties of request sequences from the reachable
      states (a client can always empty a table with [DELETE]s), and the
      round trip of an id through the item URLs of the route table.

    ** What the theorems show (by group)

    - Handlers (C1-C7, C25-C27): for all four resources, create, get,
      update, delete and list on every branch (a 404 with the table
      unchanged when the id is absent, a database error with no change
      for text psycopg2 cannot send or an exhausted sequence); the
      response model drops the id, and a body is accepted exactly when
      it is an object whose two schema fields hold a string, an integer
      or a boolean.
    - Crud (C8-C12): the session-level run of any sequence of requests
      equals the table-level one; the table invariant and the absence of
      NULLs are kept along any trace; every run refines [spec_step]; ids
      of created rows strictly increase and are never reused; list
      answers creates minus deletes.
    - App (C13, C16-C24): the server's invariant after any sequence of
      requests; a request that reaches no handler changes nothing, one
      that does is a step of the spec's contract on one table, answered
      with the status of its outcome; the only 500s are texts psycopg2
      cannot send (NUL, lone surrogate) and an exhausted sequence;
      end-to-end answers of GET, PUT, DELETE and POST, of the spec's
      slashed item paths (404), of non-integer ids (422), and of bodies
      FastAPI cannot read as JSON (400 under a JSON content type, 422
      with both fields missing under any other).
    - Contract (C14): type soundness of the pipeline: every response
      conforms to the contract of the route the router picked (a 422
      only where there are inputs, a 400 only where there is a body, an
      API 404 only from get, update and delete, a 200 of the declared
      [response_model] type).
    - Traces (C15, C29): liveness: from every reachable state the
      [DELETE]s of a table's ids are all answered 200 and empty it; an
      id the sequence can hand out, written in an item URL, routes to
      its operation and [int()] reads it back.
    - Routing (C28): 405 and its [Allow] header.  Models (C30-C31):
      [create_all] creates exactly the missing tables, keeps the others,
      is idempotent, and yields a well-formed database.
    - OpenAPI (C32, C34) and Contract (C33): for any route table whose
      operations have distinct (path, method) pairs, the document lists
      exactly those pairs (applied to the twenty decorators); every 200
      or 422 body the server sends validates against the schema the
      document declares for its operation; and every request body that
      validates against the declared request schema passes the server's
      validation.  That the document declares only 200 and 422 (the
      handlers' 404 is undocumented) is the lemma
      [OpenAPI.documented_statuses_api].

    ** Bounds and modelling choices

    - The id column is [Integer] with a SERIAL default: ids are [Z] kept
      in [1, 2147483647] by the sequence; the path parameter is an
      unbounded Python int, and lookups of ids outside the range simply
      find no row (PostgreSQL compares int4 with int8/numeric literals).
      One definition uses fuel: [OpenAPI.validate] follows [$ref]s, and
      [schema_fuel] (10) covers the deepest schema of the document, the
      location of a validation error (8 levels under a 422); C33 is
      proved at that fuel.  Every other recursion is
      structural.  The text
      [str(k)] of an id has at most 33 characters, so pydantic's
      4300-character limit never refuses an id the sequence handed out.
    - The port of a database URL goes through [PyBuiltins.py_int]
      (CPython's [int()]) without CPython's 4300-digit limit; the ports
      of the service's URLs are absent or short.
    - libpq's environment ([PGPORT] and the like) is taken as empty: an
      absent port is 5432.
    - Requests are handled one at a time: each handler runs one
      transaction, and the spec delegates concurrency to PostgreSQL's
      isolation, so a sequential interleaving of whole requests is the
      model of concurrent serving.
    - Strings are Stdlib [string]: the WTF-8 bytes of Python text (a
      lone surrogate as ED A0..BF xx).  Non-ASCII text is carried but
      only inspected for what psycopg2 refuses: a NUL or a lone
      surrogate.
    - The list order of [db.query(M).all()] is not specified by the code
      (no ORDER BY): [Storage.scan] fixes one order and the theorems about
      listing only use membership, uniqueness and length.
    - The redirect's [Location] header is the path, not the full URL.

    ** Not modelled

    - Opening connections and the connection pools (the process holds
      two engines, one per URL); [src/database.py]'s own
      [declarative_base] (no tables); logging configuration
      ([logging.basicConfig] only sets the root logger's level); the HTML
      of [/docs] and [/redoc], FastAPI's fixed Swagger UI and ReDoc pages,
      which depend on the FastAPI release and only load [/openapi.json].
    - The ["openapi"] version string of the document is that of the
      FastAPI releases for pydantic v1 before 0.99 (["3.0.2"]).
    - Float JSON numbers (a float body field would be [str(float)] under
      pydantic v1); non-ASCII digits and whitespace accepted by [int()].
*)

From stdpp Require Export base gmap strings list option.
From Stdlib Require Export ZArith Ascii.

Declare Scope crud_scope.
Delimit Scope crud_scope with crud.

(** ** The state/error monad

    [ST S E A] is a computation over a state [S] that either returns an
    [A] or raises an [E].  The state reached when an exception is raised
    is kept, since a handler may raise after a commit has already
    changed the database. *)

Definition ST (S E A : Type) : Type := S -> S * (E + A).

#[export] Instance st_ret {S E} : MRet (ST S E) := fun _ x s => (s, inr x).
#[export] Instance st_bind {S E} : MBind (ST S E) :=
  fun _ _ f m s =>
    match m s with
    | (s', inl e) => (s', inl e)
    | (s', inr x) => f x s'
    end.

Definition st_get {S E} : ST S E S := fun s => (s, inr s).
Definition st_put {S E} (s : S) : ST S E unit := fun _ => (s, inr tt).
Definition st_modify {S E} (f : S -> S) : ST S E unit := fun s => (f s, inr tt).
Definition st_raise {S E A} (e : E) : ST S E A := fun s => (s, inl e).

(** Lift a result computed purely into the monad. *)
Definition st_lift {S E A} (r : E + A) : ST S E A := fun s => (s, r).

(** Map the success value of a result. *)
Definition res_map {E A B} (f : A -> B) (r : E + A) : E + B :=
  match r with inl e => inl e | inr x => inr (f x) end.

Notation "'raise' e" := (st_raise e) (at level 10) : crud_scope.

Section st_lemmas.
Context {S E A B : Type}.
Implicit Types (s : S) (e : E).

Lemma st_ret_run (x : A) s : (mret x : ST S E A) s = (s, inr x).
Proof. reflexivity. Qed.

Lemma st_bind_ok (m : ST S E A) (f : A -> ST S E B) s s' x :
  m s = (s', inr x) -> (m ≫= f) s = f x s'.
Proof. intros Hm. unfold mbind, st_bind. by rewrite Hm. Qed.

Lemma st_bind_err (m : ST S E A) (f : A -> ST S E B) s s' e :
  m s = (s', inl e) -> (m ≫= f) s = (s', inl e).
Proof. intros Hm. unfold mbind, st_bind. by rewrite Hm. Qed.

Lemma st_raise_run e s : (st_raise e : ST S E A) s = (s, inl e).
Proof. reflexivity. Qed.

Lemma st_bind_assoc (m : ST S E A) {C} (f : A -> ST S E B) (g : B -> ST S E C) s :
  ((m ≫= f) ≫= g) s = (m ≫= fun x => f x ≫= g) s.
Proof. unfold mbind, st_bind. by destruct (m s) as [? [?|?]]. Qed.

End st_lemmas.

(** [st_preserves P m]: whatever [m] returns or raises, a state satisfying
    [P] is taken to a state satisfying [P]; the shape of every
    invariant-preservation proof of the handlers. *)
Definition st_preserves {S E A} (P : S -> Prop) (m : ST S E A) : Prop :=
  forall s, P s -> P (fst (m s)).

Section st_preserves.
Context {S E : Type} (P : S -> Prop).

Lemma st_preserves_bind {A B} (m : ST S E A) (f : A -> ST S E B) :
  st_preserves P m -> (forall x, st_preserves P (f x)) ->
  st_preserves P (m ≫= f).
Proof.
  intros Hm Hf s Hs. unfold mbind, st_bind.
  specialize (Hm s Hs). destruct (m s) as [s' [e|x]]; simpl in *; [done | by apply Hf].
Qed.

Lemma st_preserves_ret {A} (x : A) : st_preserves P (mret x : ST S E A).
Proof. intros s Hs. exact Hs. Qed.

Lemma st_preserves_raise {A} (e : E) : st_preserves P (st_raise e : ST S E A).
Proof. intros s Hs. exact Hs. Qed.
End st_preserves.

(** ** Strings

    stdpp declares [String.append] [simpl never]; its two equations, and
    associativity, are rewritten with explicitly. *)
Lemma string_app_nil_l s : String.append EmptyString s = s.
Proof. reflexivity. Qed.

Lemma string_app_cons c s t : String.append (String c s) t = String c (String.append s t).
Proof. reflexivity. Qed.

Lemma string_app_nil_r s : String.append s EmptyString = s.
Proof. induction s; rewrite ?string_app_nil_l, ?string_app_cons; congruence. Qed.

Lemma string_app_assoc a b c : String.append (String.append a b) c = String.append a (String.append b c).
Proof. induction a as [|x a IH]; [done|]. by rewrite !string_app_cons, IH. Qed.

(** [s] without the prefix [p], if [s] starts with [p]. *)
Fixpoint strip_prefix (p s : string) : option string :=
  match p, s with
  | EmptyString, _ => Some s
  | String c p', String d s' => if Ascii.eqb c d then strip_prefix p' s' else None
  | String _ _, EmptyString => None
  end.

Lemma strip_prefix_app l v : strip_prefix l (String.append l v) = Some v.
Proof. induction l; simpl; [done|]. by rewrite Ascii.eqb_refl. Qed.

(** ** Lists and booleans *)

Lemma forallb_mono {A} (f g : A -> bool) l :
  (forall x, f x = true -> g x = true) -> forallb f l = true -> forallb g l = true.
Proof. intros Hfg. induction l as [|x l IH]; [done|]. cbn [forallb]. intros [Hx Hl]%andb_prop. by rewrite Hfg, IH. Qed.

(** Two members of a list with the same image under [f] are equal when
    the images have no duplicates. *)
Lemma NoDup_fmap_in {A B} (f : A -> B) l x y :
  NoDup (f <$> l) -> x ∈ l -> y ∈ l -> f x = f y -> x = y.
Proof.
  induction l as [|a l IH]; intros Hnd Hx Hy Hf; [by apply not_elem_of_nil in Hx|].
  rewrite fmap_cons in Hnd. inversion Hnd as [|? ? Hnotin Hnd']; subst.
  apply elem_of_cons in Hx as [->|Hx], Hy as [->|Hy]; [done| | |by apply IH].
  - exfalso. apply Hnotin. rewrite Hf. by apply list_elem_of_fmap_2.
  - exfalso. apply Hnotin. rewrite <-Hf. by apply list_elem_of_fmap_2.
Qed.

Create HintDb crud discriminated.
Create Rewrite HintDb crud_rw.
#[export] Hint Rewrite string_app_nil_l string_app_cons : crud_rw.
#[export] Hint Resolve st_preserves_bind st_preserves_ret st_preserves_raise : crud.

(** [st_run] evaluates a monadic program whose steps compute: it unfolds
    the bind of the monad and lets [simpl] and [simplify_map_eq] take the
    branches that the hypotheses decide. *)
Ltac st_run :=
  repeat (unfold mbind, st_bind, mret, st_ret, st_raise, st_lift, st_get, st_put, st_modify in *;
          simpl in *; simplify_map_eq; try case_decide; try lia).
