(* ===== verification/PyBuiltins.v ===== *)
(** * PyBuiltins: Python's [str(int)] and [int(str)] on ASCII strings

    Two Python builtins the program relies on through pydantic v1:
    [str(v)] turns an integer JSON value into the text of a [str] field
    ([str_validator]), and [int(v)] turns the text of a path segment
    into the [int] id of [get_category(category_id: int)] and the other
    id handlers ([int_validator]).

    [int(s)] accepts surrounding whitespace, one optional sign, and
    decimal digits with single underscores between them; pydantic v1.10
    refuses a string longer than 4300 characters before calling it.
    Only ASCII is modelled: [int()] also accepts Unicode digits and
    spaces, which this model rejects. *)

From S2P Require Import Prelude.
From Stdlib Require Import DecimalString DecimalPos DecimalFacts.

(** [str(z)]: decimal digits, a leading '-' for negative numbers, "0"
    for zero, no leading zeros. *)
Definition py_str_of_int (z : Z) : string := NilZero.string_of_int (Z.to_int z).

(** The ASCII characters for which [str.isspace] holds: [\t \n \v \f
    \r] (9-13), the separators 28-31 and the space. *)
Definition py_isspace (c : ascii) : bool :=
  let n := nat_of_ascii c in ((9 <=? n) && (n <=? 13)) || ((28 <=? n) && (n <=? 32)).

(** [s.lstrip()] and [s.rstrip()] with no argument. *)
Fixpoint lstrip (s : string) : string :=
  match s with
  | EmptyString => EmptyString
  | String c r => if py_isspace c then lstrip r else s
  end.

Fixpoint rstrip (s : string) : string :=
  match s with
  | EmptyString => EmptyString
  | String c r =>
      match rstrip r with
      | EmptyString => if py_isspace c then EmptyString else String c EmptyString
      | r' => String c r'
      end
  end.

(** The value of an ASCII decimal digit. *)
Definition digit_value (c : ascii) : option N :=
  let n := nat_of_ascii c in
  if (48 <=? n) && (n <=? 57) then Some (N.of_nat (n - 48)) else None.

(** The digits of a base-10 literal, read most significant first as
    CPython's [PyLong_FromString] does: an underscore is allowed only
    right after a digit and must be followed by one, and there is at
    least one digit.  [after_digit] records whether the previous
    character was a digit. *)
Fixpoint parse_digits (s : string) (acc : N) (after_digit : bool) : option N :=
  match s with
  | EmptyString => if after_digit then Some acc else None
  | String c r =>
      match digit_value c with
      | Some d => parse_digits r (10 * acc + d)%N true
      | None => if Ascii.eqb c "_" && after_digit then parse_digits r acc false else None
      end
  end.

(** One optional sign, then the digits. *)
Definition parse_signed (s : string) : option Z :=
  match s with
  | String c r =>
      if Ascii.eqb c "-" then n ← parse_digits r 0 false; Some (- Z.of_N n)%Z
      else if Ascii.eqb c "+" then n ← parse_digits r 0 false; Some (Z.of_N n)
      else n ← parse_digits s 0 false; Some (Z.of_N n)
  | EmptyString => None
  end.

(** pydantic v1.10 [max_str_int]: longer strings are refused before
    [int()] is called. *)
Definition max_str_int : nat := 4300.

(** CPython's [int(s)] on a [str]: surrounding whitespace stripped, one
    sign, digits with single underscores between them; [None] is the
    [ValueError].  CPython's own limit of 4300 digits is not part of
    this definition: the texts it reads here (ports of a database URL)
    are short, and pydantic's limit below is checked on its own. *)
Definition py_int (s : string) : option Z := parse_signed (rstrip (lstrip s)).

(** pydantic v1 [int_validator] on a [str]: the length check, then
    [int(v)]; [None] is the [ValueError] pydantic reports as
    "value is not a valid integer". *)
Definition py_int_of_str (s : string) : option Z :=
  if Nat.ltb max_str_int (String.length s) then None else py_int s.

Example py_str_of_int_samples :
  py_str_of_int 0 = "0" /\ py_str_of_int 42 = "42" /\ py_str_of_int (-7) = "-7".
Proof. repeat split; reflexivity. Qed.

Example py_int_of_str_samples :
  py_int_of_str "42" = Some 42%Z /\ py_int_of_str " -0_07 " = Some (-7)%Z /\
  py_int_of_str "+5" = Some 5%Z /\ py_int_of_str "1__0" = None /\
  py_int_of_str "_1" = None /\ py_int_of_str "1_" = None /\
  py_int_of_str "- 1" = None /\ py_int_of_str "" = None /\ py_int_of_str "/5" = None.
Proof. repeat split; reflexivity. Qed.

(** ** [int(str(z)) = z] *)

Lemma parse_digits_uint (d : Decimal.uint) (acc : N) :
  parse_digits (NilEmpty.string_of_uint d) acc true =
    Some (acc * 10 ^ DecimalPos.Unsigned.usize d + N.of_uint d)%N.
Proof.
  revert acc. induction d; intros acc; simpl; rewrite ?IHd; f_equal;
    unfold N.of_uint; simpl Pos.of_uint;
    rewrite ?DecimalPos.Unsigned.of_uint_acc_rev, <- ?DecimalPos.Unsigned.of_uint_alt, ?N.pow_succ_r';
    unfold N.of_uint; lia.
Qed.

Lemma rstrip_cons c r : rstrip r = r -> r <> EmptyString -> rstrip (String c r) = String c r.
Proof. intros H Hne. simpl. rewrite H. by destruct r. Qed.

Lemma rstrip_uint d : rstrip (NilEmpty.string_of_uint d) = NilEmpty.string_of_uint d.
Proof. induction d; [done|..]; simpl; rewrite IHd; by destruct (NilEmpty.string_of_uint d). Qed.

Lemma uint_lead d :
  d <> Decimal.Nil ->
  exists c r, NilEmpty.string_of_uint d = String c r /\ py_isspace c = false /\
    Ascii.eqb c "-" = false /\ Ascii.eqb c "+" = false /\ digit_value c <> None.
Proof. destruct d; [done|..]; intros _; by eexists _, _. Qed.

Lemma parse_digits_first d acc :
  d <> Decimal.Nil ->
  parse_digits (NilEmpty.string_of_uint d) acc false = parse_digits (NilEmpty.string_of_uint d) acc true.
Proof.
  intros (c & r & Hs & _ & _ & _ & Hc)%uint_lead. rewrite Hs. simpl.
  by destruct (digit_value c).
Qed.

Lemma parse_signed_uint d :
  d <> Decimal.Nil -> parse_signed (NilEmpty.string_of_uint d) = Some (Z.of_N (N.of_uint d)).
Proof.
  intros Hd. pose proof (uint_lead d Hd) as (c & r & Hs & _ & H1 & H2 & _).
  unfold parse_signed. rewrite Hs, H1, H2, <- Hs, parse_digits_first, parse_digits_uint by done.
  simpl. by rewrite N.mul_0_l.
Qed.

Lemma lstrip_uint d : d <> Decimal.Nil -> lstrip (NilEmpty.string_of_uint d) = NilEmpty.string_of_uint d.
Proof. intros (c & r & Hs & Hsp & _)%uint_lead. rewrite Hs. simpl. by rewrite Hsp. Qed.

Lemma nilzero_uint d : d <> Decimal.Nil -> NilZero.string_of_uint d = NilEmpty.string_of_uint d.
Proof. by destruct d. Qed.

(** [int(str(z)) = z] for every integer. *)
Lemma py_int_str_of_int (z : Z) : py_int (py_str_of_int z) = Some z.
Proof.
  unfold py_int. pose proof DecimalPos.Unsigned.to_uint_nonnil as Hnn.
  destruct z as [|p|p]; [reflexivity| |]; unfold py_str_of_int; simpl Z.to_int;
    unfold NilZero.string_of_int; rewrite nilzero_uint by apply Hnn.
  - by rewrite lstrip_uint, rstrip_uint, parse_signed_uint, DecimalPos.Unsigned.of_to by apply Hnn.
  - change (lstrip (String "-" ?s)) with (String "-" s).
    rewrite rstrip_cons by (apply rstrip_uint || (destruct (uint_lead _ (Hnn p)) as (? & ? & -> & _); done)).
    unfold parse_signed. rewrite Ascii.eqb_refl, parse_digits_first, parse_digits_uint, DecimalPos.Unsigned.of_to by apply Hnn.
    by simpl.
Qed.

(** ** Length of [str(z)] for ids

    The decimal text of an int4 value has at most 11 characters (the
    bound below is the binary length), far below pydantic's limit. *)

Lemma string_of_uint_length d : String.length (NilEmpty.string_of_uint d) = Decimal.nb_digits d.
Proof. induction d; simpl; auto. Qed.

Lemma little_double_digits d :
  (Decimal.nb_digits (Decimal.Little.double d) <= S (Decimal.nb_digits d))%nat /\
  (Decimal.nb_digits (Decimal.Little.succ_double d) <= S (Decimal.nb_digits d))%nat.
Proof. induction d; simpl; lia. Qed.

Lemma to_little_digits p : (Decimal.nb_digits (Pos.to_little_uint p) <= Pos.size_nat p)%nat.
Proof.
  induction p; simpl;
    [pose proof (little_double_digits (Pos.to_little_uint p)) as [_ H]
    |pose proof (little_double_digits (Pos.to_little_uint p)) as [H _]|]; simpl; lia.
Qed.

Lemma size_nat_small p : (Z.pos p <= 2147483647)%Z -> (Pos.size_nat p <= 32)%nat.
Proof.
  intros Hp. assert (Hlt : (p < 2147483648)%positive).
  { apply Pos.ltb_lt. rewrite Pos2Z.inj_ltb. apply Z.ltb_lt. lia. }
  pose proof (Pos.size_nat_monotone p 2147483648 Hlt) as Hs.
  assert (E : Pos.size_nat 2147483648 = 32%nat) by reflexivity. rewrite E in Hs. exact Hs.
Qed.


Lemma py_str_of_int_length z :
  (Z.abs z <= 2147483647)%Z -> (String.length (py_str_of_int z) <= 33)%nat.
Proof.
  intros Hz. assert (Hp : forall p, (Z.pos p <= 2147483647)%Z ->
    (String.length (NilEmpty.string_of_uint (Pos.to_uint p)) <= 32)%nat).
  { intros p Hp. rewrite string_of_uint_length. unfold Pos.to_uint. rewrite nb_digits_rev.
    pose proof (to_little_digits p). pose proof (size_nat_small p Hp). lia. }
  pose proof DecimalPos.Unsigned.to_uint_nonnil as Hnn.
  unfold py_str_of_int. destruct z as [|p|p]; [cbn; lia| |]; cbn [Z.to_int];
    unfold NilZero.string_of_int; rewrite nilzero_uint by apply Hnn; cbn [Z.abs] in Hz.
  - specialize (Hp p Hz). lia.
  - cbn [String.length]. specialize (Hp p Hz). lia.
Qed.

Lemma py_int_of_str_small z : (Z.abs z <= 2147483647)%Z -> py_int_of_str (py_str_of_int z) = Some z.
Proof.
  intros Hz. unfold py_int_of_str.
  rewrite (proj2 (Nat.ltb_ge _ _)) by (pose proof (py_str_of_int_length z Hz); unfold max_str_int; lia).
  apply py_int_str_of_int.
Qed.

