(* ===== verification/Storage.v ===== *)
(** * Storage: one PostgreSQL table with a SERIAL primary key

    Each model class of [src/models.py] declares
    [id = Column(Integer, primary_key=True, index=True)]; on PostgreSQL,
    [create_all] turns this into an [int4] column with a [SERIAL] default,
    that is a sequence whose [nextval] supplies the id of every INSERT
    that leaves the id out.  This file models such a table: the rows keyed
    by id, the sequence (the value its next [nextval] returns), and the
    four statements the ORM emits for the handlers: INSERT ... RETURNING
    id, SELECT ... WHERE id = k, UPDATE ... WHERE id = k and DELETE ...
    WHERE id = k.  psycopg2 refuses to send a string that holds a NUL
    character or a lone surrogate; these are the only ways a string that
    passed validation can still be refused at the database.  The rows are the model objects themselves, their
    [id] set to the key ([Row] below). *)

From S2P Require Import Prelude.

(** ** Rows

    A model object carries an optional id ([None] before the first
    flush, as [Category(name=..., description=...)] has no id) and its
    string columns, [None] standing for SQL NULL. *)
Class Row (R : Type) := {
  row_id : R -> option Z;
  row_with_id : option Z -> R -> R;
  row_texts : R -> list (option string);
  row_id_with : forall i r, row_id (row_with_id i r) = i;
  row_with_id_id : forall r, row_with_id (row_id r) r = r;
  row_with_with : forall i j r, row_with_id i (row_with_id j r) = row_with_id i r;
  row_texts_with : forall i r, row_texts (row_with_id i r) = row_texts r;
}.

#[export] Hint Rewrite @row_id_with @row_with_id_id @row_with_with @row_texts_with : crud_rw.

(** Errors reported by the database or by psycopg2 for a statement. *)
Inductive db_error :=
  | UnsendableText        (** psycopg2 cannot send a text parameter: NUL, or not UTF-8 encodable *)
  | SequenceExhausted     (** nextval: reached maximum value of sequence *)
  | UniqueViolation (k : Z)  (** duplicate key value violates the primary key *)
  | StaleDataError        (** SQLAlchemy: UPDATE matched no row *)
  | UndefinedTable (name : string).  (** relation does not exist *)

#[export] Instance db_error_eq_dec : EqDecision db_error.
Proof. solve_decision. Defined.

(** [SERIAL] on an [Integer] column is a sequence [AS integer]:
    [nextval] fails past 2^31 - 1. *)
Definition SERIAL_MAX : Z := 2147483647.

Record Table (R : Type) := mkTable {
  rows : gmap Z R;
  seq_next : Z;       (** the value the next [nextval] returns *)
}.
Arguments mkTable {R} _ _.
Arguments rows {R} _.
Arguments seq_next {R} _.

(** A table as [create_all] leaves it: no rows, a fresh sequence. *)
Definition empty_table {R} : Table R := mkTable ∅ 1.

(** Python text is represented by its bytes in WTF-8: UTF-8, except
    that a lone surrogate (which [json.loads] makes of an unpaired
    [\ud800] escape) is written as the three bytes ED A0..BF 80..BF,
    which well-formed UTF-8 never holds.  psycopg2 sends text parameters
    encoded to UTF-8 and refuses a NUL character (ValueError: a string
    literal cannot contain NUL characters) and a lone surrogate
    (UnicodeEncodeError). *)
Fixpoint has_nul (s : string) : bool :=
  match s with
  | EmptyString => false
  | String c s' => bool_decide (c = "000"%char) || has_nul s'
  end.

Fixpoint has_lone_surrogate (s : string) : bool :=
  match s with
  | EmptyString => false
  | String c s' =>
      match s' with
      | String d _ => (N_of_ascii c =? 237)%N && (160 <=? N_of_ascii d)%N && (N_of_ascii d <=? 191)%N
      | EmptyString => false
      end || has_lone_surrogate s'
  end.

Definition text_ok (o : option string) : bool :=
  match o with Some s => negb (has_nul s || has_lone_surrogate s) | None => true end.

Section Table.
Context {R : Type} `{Row R}.
Implicit Types (t : Table R) (r : R) (k : Z).

Definition texts_ok r : bool := forallb text_ok (row_texts r).

(** [nextval(seq)]: returns the current value and advances; a sequence
    that reached its maximum raises, and raising does not advance it. *)
Definition nextval t : db_error + (Z * Table R) :=
  if decide (seq_next t <= SERIAL_MAX)%Z
  then inr (seq_next t, mkTable (rows t) (seq_next t + 1))
  else inl SequenceExhausted.

(** [INSERT INTO tbl (cols) VALUES (...) RETURNING tbl.id]: the id comes
    from the sequence; the sequence is not transactional, so a failing
    INSERT after [nextval] keeps it advanced (the [UniqueViolation]
    branch). *)
Definition insert_row r t : Table R * (db_error + Z) :=
  if negb (texts_ok r) then (t, inl UnsendableText) else
  match nextval t with
  | inl e => (t, inl e)
  | inr (k, t') =>
      match rows t' !! k with
      | Some _ => (t', inl (UniqueViolation k))
      | None => (mkTable (<[k := row_with_id (Some k) r]> (rows t')) (seq_next t'), inr k)
      end
  end.

(** [SELECT ... FROM tbl WHERE tbl.id = k LIMIT 1]. *)
Definition select_row k t : option R := rows t !! k.

(** [UPDATE tbl SET cols WHERE tbl.id = k]; SQLAlchemy raises
    [StaleDataError] when no row matched. *)
Definition update_row k r t : Table R * (db_error + unit) :=
  if negb (texts_ok r) then (t, inl UnsendableText) else
  match rows t !! k with
  | None => (t, inl StaleDataError)
  | Some _ => (mkTable (<[k := row_with_id (Some k) r]> (rows t)) (seq_next t), inr tt)
  end.

(** [DELETE FROM tbl WHERE tbl.id = k]; a DELETE that matched no row
    only warns (no version counter on these models). *)
Definition delete_row k t : Table R := mkTable (delete k (rows t)) (seq_next t).

(** [SELECT ... FROM tbl] with no ORDER BY: one fixed order of the rows. *)
Definition scan t : list R := snd <$> map_to_list (rows t).

(** ** The table invariant

    Every row sits under its own id, every id was handed out by the
    sequence (so lies in [1, seq_next)), and the sequence has not run
    past one more than its maximum. *)
Definition table_wf t : Prop :=
  (1 <= seq_next t <= SERIAL_MAX + 1)%Z /\
  map_Forall (fun k r => row_id r = Some k /\ (1 <= k < seq_next t)%Z) (rows t).
End Table.

Section TableLemmas.
Context {R : Type} `{Row R}.
Implicit Types (t : Table R) (r : R) (k : Z).

Lemma empty_table_wf : table_wf (empty_table (R:=R)).
Proof. split; [unfold SERIAL_MAX; simpl; lia | apply map_Forall_empty]. Qed.

Lemma table_wf_key t k r :
  table_wf t -> rows t !! k = Some r -> row_id r = Some k /\ (1 <= k < seq_next t)%Z.
Proof. intros [_ Hall] Hk. exact (Hall k r Hk). Qed.

(** Every key lies below the sequence, so the value [nextval] returns
    is never a key already in use. *)
Lemma table_wf_fresh t k :
  table_wf t -> (seq_next t <= k)%Z -> rows t !! k = None.
Proof.
  intros Hwf Hk. destruct (rows t !! k) as [r|] eqn:E; [|done].
  apply (table_wf_key _ _ _ Hwf) in E. lia.
Qed.

(** INSERT on a well-formed table, on every branch: psycopg2 refuses a
    text it cannot send first; otherwise the sequence either hands out [seq_next t],
    which is free, or is exhausted past 2^31 - 1.  The duplicate-key
    branch of [insert_row] is unreachable. *)
Lemma insert_row_eq r t :
  table_wf t ->
  insert_row r t =
    if negb (texts_ok r) then (t, inl UnsendableText)
    else if decide (seq_next t <= SERIAL_MAX)%Z
    then (mkTable (<[seq_next t := row_with_id (Some (seq_next t)) r]> (rows t))
                  (seq_next t + 1), inr (seq_next t))
    else (t, inl SequenceExhausted).
Proof.
  intros Hwf. unfold insert_row, nextval.
  destruct (negb (texts_ok r)); [done|].
  case_decide; [|done]. simpl.
  by rewrite (table_wf_fresh t (seq_next t)) by (done || lia).
Qed.

Lemma insert_row_wf r t : table_wf t -> table_wf (fst (insert_row r t)).
Proof.
  intros Hwf. rewrite insert_row_eq by done.
  destruct (negb _); [done|]. case_decide; [|done].
  destruct Hwf as [Hseq Hall]. split; simpl; [lia|].
  apply map_Forall_insert_2.
  - autorewrite with crud_rw. split; [done | lia].
  - eapply map_Forall_impl; [exact Hall|]. intros k r' [? ?]. split; [done | lia].
Qed.

Lemma update_row_wf k r t : table_wf t -> table_wf (fst (update_row k r t)).
Proof.
  intros Hwf. unfold update_row.
  destruct (negb _); [done|].
  destruct (rows t !! k) as [r0|] eqn:Ek; [|done].
  destruct (table_wf_key _ _ _ Hwf Ek) as [_ Hk].
  destruct Hwf as [Hseq Hall]. split; simpl; [lia|].
  apply map_Forall_insert_2; [autorewrite with crud_rw; split; [done | lia] | exact Hall].
Qed.

Lemma delete_row_wf k t : table_wf t -> table_wf (delete_row k t).
Proof.
  intros [Hseq Hall]. split; [exact Hseq|]. by apply map_Forall_delete.
Qed.


(** After a successful INSERT or UPDATE the row is there under its id. *)
Lemma insert_row_lookup r t t' k :
  insert_row r t = (t', inr k) -> rows t' !! k = Some (row_with_id (Some k) r).
Proof.
  unfold insert_row, nextval. destruct (negb _); [done|].
  case_decide; [|done]. simpl. destruct (rows t !! seq_next t); [done|].
  intros [= <- <-]. simpl. by simplify_map_eq.
Qed.

Lemma update_row_lookup k r t t' :
  update_row k r t = (t', inr tt) -> rows t' !! k = Some (row_with_id (Some k) r).
Proof.
  unfold update_row. destruct (negb _); [done|].
  destruct (rows t !! k); [|done]. intros [= <-]. simpl. by simplify_map_eq.
Qed.

(** The ids of a full scan are the keys, without duplicates. *)
Lemma scan_ids t :
  table_wf t -> row_id <$> scan t = Some <$> (fst <$> map_to_list (rows t)).
Proof.
  intros Hwf. unfold scan. rewrite <- !list_fmap_compose.
  apply list_fmap_ext. intros i [k r] Hi. simpl.
  apply list_elem_of_lookup_2, elem_of_map_to_list in Hi.
  by destruct (table_wf_key _ _ _ Hwf Hi).
Qed.

Lemma scan_ids_NoDup t : table_wf t -> NoDup (row_id <$> scan t).
Proof.
  intros Hwf. rewrite scan_ids by done.
  apply NoDup_fmap; [intros ?? [=]; done | apply NoDup_fst_map_to_list].
Qed.

(** The rows a full scan returns are exactly the rows of the table. *)
Lemma elem_of_scan t r : r ∈ scan t <-> exists k, rows t !! k = Some r.
Proof.
  unfold scan. rewrite list_elem_of_fmap. split.
  - intros [[k r'] [-> Hin]]. exists k. by apply elem_of_map_to_list.
  - intros [k Hk]. exists (k, r). split; [done|]. by apply elem_of_map_to_list.
Qed.

Lemma length_scan t : length (scan t) = size (rows t).
Proof. unfold scan. by rewrite length_fmap, length_map_to_list. Qed.
End TableLemmas.
