(* ===== verification/Session.v ===== *)
(** * Session: the SQLAlchemy session behind [get_db]

    [src/main.py] line 19 builds its sessions with
    [sessionmaker(autocommit=False, autoflush=False, bind=engine)], and
    [get_db] (lines 22-27) opens one per request and closes it in a
    [finally].  This file models such a session over one table:

    - the heap of Python model objects the handler holds ([handle]s index
      it), each with its SQLAlchemy state (transient, pending, persistent,
      deleted, detached), a dirty flag set by attribute assignment and an
      expired flag set by commit ([expire_on_commit] defaults to True);
    - the identity map: a query that finds a row already loaded in the
      session returns the same object;
    - [db.add], [db.query(M).filter(M.id == k).first()],
      [db.query(M).all()], attribute assignment, [db.delete], [db.commit]
      (flush, then expire), [db.refresh] and attribute loading;
    - [get_db]: a fresh session on the table, the handler, then close,
      which drops the heap: with [autoflush=False] nothing reaches the
      table except through [commit].

    Exceptions are the values of [exc]: the handlers' [HTTPException],
    database errors, and the ORM's own. *)

From S2P Require Import Prelude Storage.

Inductive obj_state := Transient | Pending | Persistent | Deleted | Detached.

#[export] Instance obj_state_eq_dec : EqDecision obj_state.
Proof. solve_decision. Defined.

Record obj (R : Type) := mkObj {
  o_row : R;
  o_state : obj_state;
  o_dirty : bool;     (** an attribute was assigned since the last flush *)
  o_expired : bool;   (** attributes must be reloaded before use *)
}.
Arguments mkObj {R} _ _ _ _.
Arguments o_row {R} _.
Arguments o_state {R} _.
Arguments o_dirty {R} _.
Arguments o_expired {R} _.

Record session (R : Type) := mkSession {
  s_table : Table R;
  s_heap : list (obj R);
}.
Arguments mkSession {R} _ _.
Arguments s_table {R} _.
Arguments s_heap {R} _.

(** A reference to a Python object held by the handler. *)
Abbreviation handle := nat.

Inductive exc :=
  | HTTPException (status_code : Z) (detail : string)  (** fastapi.HTTPException *)
  | DBAPIError (e : db_error)      (** psycopg2 / PostgreSQL error, through SQLAlchemy *)
  | InvalidRequestError            (** e.g. refresh or delete of an object that is not persistent *)
  | ObjectDeletedError             (** reload of a persistent object whose row is gone *)
  | DetachedInstanceError.         (** attribute load on an expired, detached object *)

#[export] Instance exc_eq_dec : EqDecision exc.
Proof. solve_decision. Defined.

Abbreviation Sess R := (ST (session R) exc).

Section Session.
Context {R : Type} `{Row R}.
Implicit Types (s : session R) (o : obj R) (h : nat) (r : R) (k : Z).

Definition heap_get h : Sess R (obj R) := fun s =>
  match s_heap s !! h with
  | Some o => (s, inr o)
  | None => (s, inl InvalidRequestError)
  end.

Definition heap_set h o : Sess R unit := fun s =>
  (mkSession (s_table s) (<[h := o]> (s_heap s)), inr tt).

(** [M(field=..., ...)]: a new transient object, not yet in the session. *)
Definition new_obj r : Sess R nat := fun s =>
  (mkSession (s_table s) (s_heap s ++ [mkObj r Transient false false]),
   inr (length (s_heap s))).

(** [db.add(obj)]: a transient object becomes pending; adding an object
    the session already tracks changes nothing. *)
Definition db_add h : Sess R unit :=
  o ← heap_get h;
  match o_state o with
  | Transient => heap_set h (mkObj (o_row o) Pending (o_dirty o) (o_expired o))
  | _ => mret tt
  end.

(** The identity map holds the persistent objects and those marked for
    deletion but not yet flushed. *)
Definition in_identity (id : option Z) o : Prop :=
  (o_state o = Persistent \/ o_state o = Deleted) /\ row_id (o_row o) = id.

#[local] Instance in_identity_dec id o : Decision (in_identity id o).
Proof. unfold in_identity. apply _. Defined.

(** A row returned by a query becomes an object of the session: the
    object already mapped to its id if there is one (reloaded if it was
    expired), a new persistent object otherwise. *)
Definition register_row r : Sess R nat := fun s =>
  match list_find (in_identity (row_id r)) (s_heap s) with
  | Some (h, o) =>
      if o_expired o
      then (mkSession (s_table s) (<[h := mkObj r (o_state o) false false]> (s_heap s)), inr h)
      else (s, inr h)
  | None =>
      (mkSession (s_table s) (s_heap s ++ [mkObj r Persistent false false]),
       inr (length (s_heap s)))
  end.

(** [db.query(M).filter(M.id == k).first()]. *)
Definition db_query_first k : Sess R (option nat) :=
  s ← st_get;
  match select_row k (s_table s) with
  | None => mret None
  | Some r => h ← register_row r; mret (Some h)
  end.

(** [db.query(M).all()]. *)
Definition db_query_all : Sess R (list nat) :=
  s ← st_get;
  mapM register_row (scan (s_table s)).

(** [obj.field = value] for the fields [f] rewrites. *)
Definition set_attrs h (f : R -> R) : Sess R unit :=
  o ← heap_get h;
  heap_set h (mkObj (f (o_row o)) (o_state o) true (o_expired o)).

(** [db.delete(obj)]: only a persistent object can be marked. *)
Definition db_delete h : Sess R unit :=
  o ← heap_get h;
  match o_state o with
  | Persistent => heap_set h (mkObj (o_row o) Deleted (o_dirty o) (o_expired o))
  | Deleted => mret tt
  | _ => st_raise InvalidRequestError
  end.

(** Flushing one object: INSERT for a pending object (which takes the
    returned id and becomes persistent), UPDATE for a dirty persistent
    one, DELETE for one marked deleted (which becomes detached). *)
Definition flush_one o (t : Table R) : Table R * (db_error + obj R) :=
  match o_state o, row_id (o_row o) with
  | Pending, _ =>
      let '(t', res) := insert_row (o_row o) t in
      (t', res_map (fun k => mkObj (row_with_id (Some k) (o_row o)) Persistent false false) res)
  | Persistent, Some k =>
      if o_dirty o then
        let '(t', res) := update_row k (o_row o) t in
        (t', res_map (fun _ => mkObj (o_row o) Persistent false (o_expired o)) res)
      else (t, inr o)
  | Deleted, Some k => (delete_row k t, inr (mkObj (o_row o) Detached false (o_expired o)))
  | _, _ => (t, inr o)
  end.

(** The flush visits the objects in heap order and stops at the first
    failing statement.  (SQLAlchemy's unit of work orders inserts and
    updates before deletes; each handler has at most one pending change,
    so the orders agree on every program of [src/main.py].) *)
Fixpoint flush_objs (os : list (obj R)) (t : Table R) : Table R * (db_error + list (obj R)) :=
  match os with
  | [] => (t, inr [])
  | o :: os' =>
      let '(t1, r1) := flush_one o t in
      match r1 with
      | inl e => (t1, inl e)
      | inr o' => let '(t2, r2) := flush_objs os' t1 in (t2, res_map (o' ::.) r2)
      end
  end.

(** [expire_on_commit]: every persistent object must be reloaded. *)
Definition expire o : obj R :=
  match o_state o with
  | Persistent => mkObj (o_row o) Persistent false true
  | _ => o
  end.

(** [db.commit()]: flush, then commit and expire; a failing flush rolls
    the transaction back, which restores the rows but not the sequence
    ([nextval] is not transactional), and the error propagates. *)
Definition db_commit : Sess R unit := fun s =>
  let '(t', res) := flush_objs (s_heap s) (s_table s) in
  match res with
  | inl e => (mkSession (mkTable (rows (s_table s)) (seq_next t')) (s_heap s), inl (DBAPIError e))
  | inr os => (mkSession t' (expire <$> os), inr tt)
  end.

(** Reload a persistent object's attributes from its row. *)
Definition reload h o (missing : exc) : Sess R R :=
  s ← st_get;
  match row_id (o_row o) ≫= fun k => select_row k (s_table s) with
  | Some r => heap_set h (mkObj r Persistent false false);; mret r
  | None => st_raise missing
  end.

(** [db.refresh(obj)]. *)
Definition db_refresh h : Sess R unit :=
  o ← heap_get h;
  match o_state o with
  | Persistent => reload h o InvalidRequestError;; mret tt
  | _ => st_raise InvalidRequestError
  end.

(** Reading the attributes of an object (what [return obj] leads to when
    the response is serialised): an expired persistent object is loaded
    again, an expired detached one cannot be. *)
Definition db_load h : Sess R R :=
  o ← heap_get h;
  if o_expired o then
    match o_state o with
    | Persistent => reload h o ObjectDeletedError
    | _ => st_raise DetachedInstanceError
    end
  else mret (o_row o).

Definition db_load_all (hs : list nat) : Sess R (list R) := mapM db_load hs.

(** [get_db]: [db = SessionLocal()], run the handler, [db.close()] in
    the [finally]: the objects are dropped and only what was committed
    stays in the table. *)
Definition get_db {A} (handler : Sess R A) (t : Table R) : Table R * (exc + A) :=
  let '(s, res) := handler (mkSession t []) in (s_table s, res).
End Session.

(** [sess_run] evaluates a session program on a concrete shape: it
    unfolds the session operations and the monad and simplifies. *)
Ltac sess_unfold :=
  unfold get_db, new_obj, db_add, heap_get, heap_set, db_commit, db_refresh, db_load,
    db_delete, set_attrs, db_query_first, db_query_all, register_row, reload, flush_one,
    expire, mbind, st_bind, mret, st_ret, st_get, st_raise in *.
Ltac sess_run := repeat (progress (sess_unfold; simpl in *)).

(** ** Loading rows into a fresh session *)
Section Register.
Context {R : Type} `{Row R}.
Implicit Types (t : Table R) (r : R) (k : Z).

(** The object a query creates for a row not yet in the session. *)
Definition fresh_obj r : obj R := mkObj r Persistent false false.

Lemma register_row_new r (s : session R) :
  Forall (fun o => ¬ in_identity (row_id r) o) (s_heap s) ->
  register_row r s = (mkSession (s_table s) (s_heap s ++ [fresh_obj r]), inr (length (s_heap s))).
Proof. intros Hr. unfold register_row. by rewrite (proj2 (list_find_None _ _) Hr). Qed.

Lemma mapM_register_fresh (l : list R) t (hp : list (obj R)) :
  NoDup (row_id <$> l) ->
  Forall (fun r => Forall (fun o => ¬ in_identity (row_id r) o) hp) l ->
  mapM register_row l (mkSession t hp) =
    (mkSession t (hp ++ (fresh_obj <$> l)), inr (seq (length hp) (length l))).
Proof.
  revert hp. induction l as [|r l IH]; intros hp Hnd Hfresh; simpl.
  { by rewrite app_nil_r. }
  rewrite fmap_cons in Hnd. inversion Hnd as [|? ? Hnotin Hnd']; subst.
  inversion Hfresh as [|? ? Hr Hl]; subst.
  rewrite (st_bind_ok _ _ _ _ _ (register_row_new r (mkSession t hp) Hr)). simpl.
  assert (Hl' : Forall (fun r' => Forall (fun o => ¬ in_identity (row_id r') o)
                                   (hp ++ [fresh_obj r])) l).
  { apply Forall_forall. intros r' Hr'. apply Forall_app. split.
    + exact (proj1 (Forall_forall _ _) Hl r' Hr').
    + apply Forall_singleton. unfold in_identity. intros [_ Heq]. simpl in Heq. apply Hnotin.
      rewrite Heq. apply list_elem_of_fmap_2. by apply list_elem_of_In. }
  rewrite (st_bind_ok _ _ _ _ _ (IH _ Hnd' Hl')).
  simpl. rewrite <- app_assoc, length_app. simpl. by rewrite Nat.add_1_r.
Qed.

Lemma load_all_fresh (l : list R) t (hp : list (obj R)) :
  db_load_all (seq (length hp) (length l)) (mkSession t (hp ++ (fresh_obj <$> l))) =
    (mkSession t (hp ++ (fresh_obj <$> l)), inr l).
Proof.
  unfold db_load_all. revert hp. induction l as [|r l IH]; intros hp; simpl; [done|].
  assert (Hget : db_load (length hp) (mkSession t (hp ++ fresh_obj r :: (fresh_obj <$> l)))
                 = (mkSession t (hp ++ fresh_obj r :: (fresh_obj <$> l)), inr r)).
  { unfold db_load, heap_get, mbind, st_bind. simpl.
    by rewrite lookup_app_r, Nat.sub_diag by lia. }
  rewrite (st_bind_ok _ _ _ _ _ Hget).
  specialize (IH (hp ++ [fresh_obj r])). rewrite <- app_assoc, length_app, Nat.add_1_r in IH.
  simpl in IH. rewrite (st_bind_ok _ _ _ _ _ IH). done.
Qed.
End Register.

(** ** What each handler shape does to the table

    The handlers of [src/main.py] have five shapes; each lemma below runs
    one shape under [get_db] on an arbitrary table and gives the table
    after [db.close()] and the result, on every branch. *)
Section SessionLemmas.
Context {R : Type} `{Row R}.
Implicit Types (t : Table R) (r : R) (k : Z).

(** [obj = M(...); db.add(obj); db.commit(); db.refresh(obj);
    return obj] under [get_db], on any table: the INSERT's outcome
    decides everything; on success the object answered is the stored
    row with the id the database returned, on failure the rows are
    rolled back, the sequence keeps what [nextval] took, and the error
    propagates. *)
Lemma get_db_create r t :
  get_db (h ← new_obj r; db_add h;; db_commit;; db_refresh h;; db_load h) t =
    match insert_row r t with
    | (t', inr k) => (t', inr (row_with_id (Some k) r))
    | (t', inl e) => (mkTable (rows t) (seq_next t'), inl (DBAPIError e))
    end.
Proof.
  sess_run.
  destruct (insert_row r t) as [t' [e|k]] eqn:Hins; sess_run; [done|].
  rewrite row_id_with. simpl. unfold select_row.
  by rewrite (insert_row_lookup _ _ _ _ Hins).
Qed.
Lemma mkTable_eta t : mkTable (rows t) (seq_next t) = t.
Proof. by destruct t. Qed.

(** The create shape on a well-formed table, on its three branches. *)
Lemma get_db_create_wf r t :
  table_wf t ->
  get_db (h ← new_obj r; db_add h;; db_commit;; db_refresh h;; db_load h) t =
    if negb (texts_ok r) then (t, inl (DBAPIError UnsendableText))
    else if decide (seq_next t <= SERIAL_MAX)%Z
    then (mkTable (<[seq_next t := row_with_id (Some (seq_next t)) r]> (rows t)) (seq_next t + 1),
          inr (row_with_id (Some (seq_next t)) r))
    else (t, inl (DBAPIError SequenceExhausted)).
Proof.
  intros Hwf. rewrite get_db_create, insert_row_eq by done.
  destruct (negb _); [by rewrite mkTable_eta|]. by case_decide; [|rewrite mkTable_eta].
Qed.

(** [obj = query.first(); if obj is None: raise ...; return obj]. *)
Lemma get_db_get k (e404 : exc) t :
  get_db (o ← db_query_first k; match o with None => st_raise e404 | Some h => db_load h end) t =
    (t, match rows t !! k with None => inl e404 | Some r => inr r end).
Proof.
  sess_run. unfold select_row. destruct (rows t !! k); sess_run; done.
Qed.

(** [obj = query.first(); if None: raise; obj.a = ..; obj.b = ..;
    db.commit(); db.refresh(obj); return obj]. *)
Lemma get_db_update k (e404 : exc) (f g : R -> R) t :
  table_wf t -> (forall r, row_id (f r) = row_id r) -> (forall r, row_id (g r) = row_id r) ->
  get_db (o ← db_query_first k;
          match o with
          | None => st_raise e404
          | Some h => set_attrs h f;; set_attrs h g;; db_commit;; db_refresh h;; db_load h
          end) t =
    match rows t !! k with
    | None => (t, inl e404)
    | Some r =>
        match update_row k (g (f r)) t with
        | (t', inr _) => (t', inr (row_with_id (Some k) (g (f r))))
        | (t', inl e) => (mkTable (rows t) (seq_next t'), inl (DBAPIError e))
        end
    end.
Proof.
  intros Hwf Hf Hg. sess_run. unfold select_row.
  destruct (rows t !! k) as [r|] eqn:Hk; sess_run; [|done].
  destruct (table_wf_key _ _ _ Hwf Hk) as [Hid _].
  rewrite Hg, Hf, Hid. simpl.
  destruct (update_row k (g (f r)) t) as [t' [e|[]]] eqn:Hup; sess_run; [done|].
  rewrite Hg, Hf, Hid. simpl. unfold select_row.
  by rewrite (update_row_lookup _ _ _ _ Hup).
Qed.

(** The update shape on a well-formed table: absent id, refused text,
    or the row replaced by the assigned fields under the same id. *)
Lemma get_db_update_wf k (e404 : exc) (f g : R -> R) t :
  table_wf t -> (forall r, row_id (f r) = row_id r) -> (forall r, row_id (g r) = row_id r) ->
  get_db (o ← db_query_first k;
          match o with
          | None => st_raise e404
          | Some h => set_attrs h f;; set_attrs h g;; db_commit;; db_refresh h;; db_load h
          end) t =
    match rows t !! k with
    | None => (t, inl e404)
    | Some r =>
        if texts_ok (g (f r))
        then (mkTable (<[k := row_with_id (Some k) (g (f r))]> (rows t)) (seq_next t),
              inr (row_with_id (Some k) (g (f r))))
        else (t, inl (DBAPIError UnsendableText))
    end.
Proof.
  intros Hwf Hf Hg. rewrite get_db_update by done.
  destruct (rows t !! k) as [r|] eqn:Hk; [|done].
  unfold update_row. rewrite Hk. by destruct (texts_ok _); simpl; [|rewrite mkTable_eta].
Qed.

(** [obj = query.first(); if None: raise; db.delete(obj); db.commit();
    return obj]: the object returned is the row as it was before the
    DELETE (a deleted object is detached by the commit, not expired). *)
Lemma get_db_delete k (e404 : exc) t :
  table_wf t ->
  get_db (o ← db_query_first k;
          match o with
          | None => st_raise e404
          | Some h => db_delete h;; db_commit;; db_load h
          end) t =
    match rows t !! k with
    | None => (t, inl e404)
    | Some r => (delete_row k t, inr r)
    end.
Proof.
  intros Hwf. sess_run. unfold select_row.
  destruct (rows t !! k) as [r|] eqn:Hk; sess_run; [|done].
  destruct (table_wf_key _ _ _ Hwf Hk) as [Hid _].
  rewrite Hid. sess_run. done.
Qed.
(** [objs = db.query(M).all(); return objs]. *)
Lemma get_db_list t :
  table_wf t -> get_db (hs ← db_query_all; db_load_all hs) t = (t, inr (scan t)).
Proof.
  intros Hwf. unfold get_db, db_query_all.
  rewrite st_bind_assoc, (st_bind_ok _ _ _ _ _ (eq_refl : st_get (mkSession t []) = _)).
  assert (Hnone : Forall (fun r => Forall (fun o => ¬ in_identity (row_id r) o) []) (scan t)).
  { apply Forall_forall. intros; constructor. }
  simpl. rewrite (st_bind_ok _ _ _ _ _ (mapM_register_fresh (scan t) t [] (scan_ids_NoDup t Hwf) Hnone)).
  by rewrite (load_all_fresh (scan t) t []).
Qed.
End SessionLemmas.
