(* ===== verification/Models.v ===== *)
(** * Models: the four SQLAlchemy model classes and the database

    [src/models.py] declares four classes on one declarative [Base]; each
    becomes a record here, one Module per class, with the Python
    attribute names.  A column declared [nullable=False] is a [string],
    a nullable one an [option string]; the id is [None] until the first
    flush assigns it.  The database holds one table per class, or none
    before [Base.metadata.create_all(bind=engine)] (line 33) has run. *)

From S2P Require Import Prelude Storage Session.

(** [class Category(Base)], [__tablename__ = 'categories'] (lines 6-10). *)
Module Category.
Record t := mk {
  id : option Z;
  name : string;                 (** [Column(String, nullable=False)] *)
  description : option string;  (** [Column(Text)] *)
}.
End Category.

(** [class Place(Base)], [__tablename__ = 'places'] (lines 12-16). *)
Module Place.
Record t := mk {
  id : option Z;
  name : string;              (** [Column(String, nullable=False)] *)
  location : option string;   (** [Column(String)] *)
}.
End Place.

(** [class Image(Base)], [__tablename__ = 'images'] (lines 18-22). *)
Module Image.
Record t := mk {
  id : option Z;
  filename : string;   (** [Column(String, nullable=False)] *)
  url : string;        (** [Column(String, nullable=False)] *)
}.
End Image.

(** [class Video(Base)], [__tablename__ = 'videos'] (lines 24-28). *)
Module Video.
Record t := mk {
  id : option Z;
  filename : string;   (** [Column(String, nullable=False)] *)
  url : string;        (** [Column(String, nullable=False)] *)
}.
End Video.

#[export, refine] Instance category_row : Row Category.t := {|
  row_id := Category.id;
  row_with_id i c := Category.mk i (Category.name c) (Category.description c);
  row_texts c := [Some (Category.name c); Category.description c];
|}.
Proof. all: by intros; repeat match goal with c : Category.t |- _ => destruct c end. Defined.

#[export, refine] Instance place_row : Row Place.t := {|
  row_id := Place.id;
  row_with_id i p := Place.mk i (Place.name p) (Place.location p);
  row_texts p := [Some (Place.name p); Place.location p];
|}.
Proof. all: by intros; repeat match goal with p : Place.t |- _ => destruct p end. Defined.

#[export, refine] Instance image_row : Row Image.t := {|
  row_id := Image.id;
  row_with_id i m := Image.mk i (Image.filename m) (Image.url m);
  row_texts m := [Some (Image.filename m); Some (Image.url m)];
|}.
Proof. all: by intros; repeat match goal with m : Image.t |- _ => destruct m end. Defined.

#[export, refine] Instance video_row : Row Video.t := {|
  row_id := Video.id;
  row_with_id i v := Video.mk i (Video.filename v) (Video.url v);
  row_texts v := [Some (Video.filename v); Some (Video.url v)];
|}.
Proof. all: by intros; repeat match goal with v : Video.t |- _ => destruct v end. Defined.

(** The PostgreSQL database [postgres] as the application sees it: one
    table per model class, [None] while the table does not exist. *)
Record Db := mkDb {
  categories : option (Table Category.t);
  places : option (Table Place.t);
  images : option (Table Image.t);
  videos : option (Table Video.t);
}.

(** A database where none of the tables exists yet. *)
Definition db_init : Db := mkDb None None None None.

(** [Base.metadata.create_all(bind=engine)]: [CREATE TABLE] for each
    table of the metadata that does not exist yet ([checkfirst=True]);
    existing tables, with their rows and sequences, are left alone. *)
Definition create_all (db : Db) : Db :=
  mkDb (Some (default empty_table (categories db)))
       (Some (default empty_table (places db)))
       (Some (default empty_table (images db)))
       (Some (default empty_table (videos db))).

(** All four tables exist and satisfy the table invariant. *)
Definition db_wf (db : Db) : Prop :=
  (exists t, categories db = Some t /\ table_wf t) /\
  (exists t, places db = Some t /\ table_wf t) /\
  (exists t, images db = Some t /\ table_wf t) /\
  (exists t, videos db = Some t /\ table_wf t).

(** A table that exists is well formed (vacuous for a missing table). *)
Definition opt_table_wf {R} `{Row R} (o : option (Table R)) : Prop :=
  match o with Some t => table_wf t | None => True end.

Lemma default_empty_wf {R} `{Row R} (o : option (Table R)) :
  opt_table_wf o -> table_wf (default empty_table o).
Proof. destruct o; simpl; [done | intros _; apply empty_table_wf]. Qed.

(** (C30) [create_all] at start-up creates every missing table empty (no
    rows, a sequence that starts at 1), leaves every existing table with
    its rows and sequence, and a second run changes nothing. *)
Theorem create_all_spec (db : Db) :
  create_all (create_all db) = create_all db /\
  (categories db = None -> categories (create_all db) = Some empty_table) /\
  (forall t, categories db = Some t -> categories (create_all db) = Some t) /\
  (places db = None -> places (create_all db) = Some empty_table) /\
  (forall t, places db = Some t -> places (create_all db) = Some t) /\
  (images db = None -> images (create_all db) = Some empty_table) /\
  (forall t, images db = Some t -> images (create_all db) = Some t) /\
  (videos db = None -> videos (create_all db) = Some empty_table) /\
  (forall t, videos db = Some t -> videos (create_all db) = Some t).
Proof. destruct db as [[] [] [] []]; repeat split; simpl; congruence. Qed.

(** (C31) Starting from tables that satisfy the invariant (in particular from no
    tables at all), [create_all] yields a well-formed database. *)
Theorem create_all_wf (db : Db) :
  opt_table_wf (categories db) -> opt_table_wf (places db) ->
  opt_table_wf (images db) -> opt_table_wf (videos db) ->
  db_wf (create_all db).
Proof. intros. repeat split; eexists; split; eauto using default_empty_wf. Qed.

Lemma create_all_wf_witness : db_wf (create_all db_init).
Proof. apply create_all_wf; exact I. Defined.

