(* ===== verification/Schemas.v ===== *)
(** * Schemas: JSON bodies, the pydantic schemas and the response models

    [src/main.py] lines 30-56 declare four pydantic models, all fields
    [str], with [class Config: orm_mode = True] (the pydantic v1 style).
    They play two roles:

    - request validation: FastAPI parses the JSON body and validates it
      against the schema of the handler's body parameter;
    - response serialisation: every handler has [response_model=XCreate]
      (or [List[XCreate]]), so the returned ORM object is validated
      through [from_orm] (reading its attributes) and only the schema's
      fields are sent back.

    JSON values are modelled without floats.  A JSON object is its list of
    members; Python's [json] keeps the last of duplicated keys. *)

From S2P Require Import Prelude PyBuiltins Models.

#[warnings="-register-all"]
Inductive json :=
  | JNull
  | JBool (b : bool)
  | JInt (z : Z)
  | JStr (s : string)
  | JArr (l : list json)
  | JObj (members : list (string * json)).

(** [d[k]] for the dict that [json.loads] builds: the last member wins. *)
Fixpoint obj_get (k : string) (members : list (string * json)) : option json :=
  match members with
  | [] => None
  | (k', v) :: rest =>
      match obj_get k rest with
      | Some v' => Some v'
      | None => if decide (k = k') then Some v else None
      end
  end.

(** pydantic v1 [str_validator]: a [str] is kept, an [int] (and so a
    [bool], a subclass of [int]) is converted with [str()]; [None] and
    containers are refused. *)
Definition str_validator (v : json) : option string :=
  match v with
  | JStr s => Some s
  | JInt z => Some (py_str_of_int z)
  | JBool true => Some "True"
  | JBool false => Some "False"
  | _ => None
  end.

(** A required [str] field of a request body: missing or refused gives a
    validation error (HTTP 422). *)
Definition str_field (k : string) (members : list (string * json)) : option string :=
  obj_get k members ≫= str_validator.

(** [class CategoryCreate(BaseModel)] (lines 30-35). *)
Module CategoryCreate.
Record t := mk { name : string; description : string }.
End CategoryCreate.

(** [class PlaceCreate(BaseModel)] (lines 37-42). *)
Module PlaceCreate.
Record t := mk { name : string; location : string }.
End PlaceCreate.

(** [class ImageCreate(BaseModel)] (lines 44-49). *)
Module ImageCreate.
Record t := mk { filename : string; url : string }.
End ImageCreate.

(** [class VideoCreate(BaseModel)] (lines 51-56). *)
Module VideoCreate.
Record t := mk { filename : string; url : string }.
End VideoCreate.

(** Request validation.  With [orm_mode = True], a body that is not a
    JSON object is read through [from_orm], which finds none of the
    fields, so it is refused as well. *)
Definition validate_CategoryCreate (body : json) : option CategoryCreate.t :=
  match body with
  | JObj m =>
      name ← str_field "name" m;
      description ← str_field "description" m;
      Some (CategoryCreate.mk name description)
  | _ => None
  end.

Definition validate_PlaceCreate (body : json) : option PlaceCreate.t :=
  match body with
  | JObj m =>
      name ← str_field "name" m;
      location ← str_field "location" m;
      Some (PlaceCreate.mk name location)
  | _ => None
  end.

Definition validate_ImageCreate (body : json) : option ImageCreate.t :=
  match body with
  | JObj m =>
      filename ← str_field "filename" m;
      url ← str_field "url" m;
      Some (ImageCreate.mk filename url)
  | _ => None
  end.

Definition validate_VideoCreate (body : json) : option VideoCreate.t :=
  match body with
  | JObj m =>
      filename ← str_field "filename" m;
      url ← str_field "url" m;
      Some (VideoCreate.mk filename url)
  | _ => None
  end.

(** Response serialisation through [response_model]: [from_orm] reads the
    schema's attributes of the returned object; a [None] attribute (SQL
    NULL in a nullable column) fails validation, which FastAPI reports as
    a server error.  The id is not a field of the schema and is dropped. *)
Definition response_CategoryCreate (c : Category.t) : option json :=
  description ← Category.description c;
  Some (JObj [("name", JStr (Category.name c)); ("description", JStr description)]).

Definition response_PlaceCreate (p : Place.t) : option json :=
  location ← Place.location p;
  Some (JObj [("name", JStr (Place.name p)); ("location", JStr location)]).

Definition response_ImageCreate (m : Image.t) : option json :=
  Some (JObj [("filename", JStr (Image.filename m)); ("url", JStr (Image.url m))]).

Definition response_VideoCreate (v : Video.t) : option json :=
  Some (JObj [("filename", JStr (Video.filename v)); ("url", JStr (Video.url v))]).

(** [response_model=List[XCreate]]: every element must serialise. *)
Definition response_list {A} (f : A -> option json) (l : list A) : option json :=
  JArr <$> mapM f l.
