(* ===== verification/Handlers.v ===== *)
(** * Handlers: the twenty path operations of [src/main.py]

    Each handler is one definition, written statement by statement in the
    session monad [Sess] ([Session.v]):

    - [M(field=...)] is [new_obj], [db.add] is [db_add], [db.commit()]
      is [db_commit], [db.refresh(obj)] is [db_refresh];
    - [db.query(M).filter(M.id == k).first()] is [db_query_first k] and
      [db.query(M).all()] is [db_query_all];
    - [obj.field = value] is [set_attrs] with the record update of that
      one field;
    - [raise HTTPException(status_code=404, detail=...)] is [st_raise];
    - [return obj] reads the object's attributes ([db_load]), which is
      what serialising it through [response_model] does.

    [get_db] (the [Depends(get_db)] parameter) wraps each handler when it
    runs, in [App.v]; the theorems here run each handler under [get_db]
    on one table.  The second half of the file groups the four resources
    under one index [resource], with the row the spec expects
    ([spec_row]), and states the properties for all four at once. *)

From S2P Require Import Prelude Storage Session Models Schemas.

(** ** Categories (lines 59-97) *)

Definition create_category (category : CategoryCreate.t) : Sess Category.t Category.t :=
  db_category ← new_obj (Category.mk None (CategoryCreate.name category)
                                      (Some (CategoryCreate.description category)));
  db_add db_category;;
  db_commit;;
  db_refresh db_category;;
  db_load db_category.

Definition get_categories : Sess Category.t (list Category.t) :=
  categories ← db_query_all;
  db_load_all categories.

Definition get_category (category_id : Z) : Sess Category.t Category.t :=
  category ← db_query_first category_id;
  match category with
  | None => st_raise (HTTPException 404 "Category not found")
  | Some category => db_load category
  end.

Definition update_category (category_id : Z) (category : CategoryCreate.t)
    : Sess Category.t Category.t :=
  db_category ← db_query_first category_id;
  match db_category with
  | None => st_raise (HTTPException 404 "Category not found")
  | Some db_category =>
      set_attrs db_category (fun c => Category.mk (Category.id c)
                                        (CategoryCreate.name category) (Category.description c));;
      set_attrs db_category (fun c => Category.mk (Category.id c)
                                        (Category.name c) (Some (CategoryCreate.description category)));;
      db_commit;;
      db_refresh db_category;;
      db_load db_category
  end.

Definition delete_category (category_id : Z) : Sess Category.t Category.t :=
  db_category ← db_query_first category_id;
  match db_category with
  | None => st_raise (HTTPException 404 "Category not found")
  | Some db_category =>
      db_delete db_category;;
      db_commit;;
      db_load db_category
  end.

(** ** Places (lines 100-138) *)

Definition create_place (place : PlaceCreate.t) : Sess Place.t Place.t :=
  db_place ← new_obj (Place.mk None (PlaceCreate.name place) (Some (PlaceCreate.location place)));
  db_add db_place;;
  db_commit;;
  db_refresh db_place;;
  db_load db_place.

Definition get_places : Sess Place.t (list Place.t) :=
  places ← db_query_all;
  db_load_all places.

Definition get_place (place_id : Z) : Sess Place.t Place.t :=
  place ← db_query_first place_id;
  match place with
  | None => st_raise (HTTPException 404 "Place not found")
  | Some place => db_load place
  end.

Definition update_place (place_id : Z) (place : PlaceCreate.t) : Sess Place.t Place.t :=
  db_place ← db_query_first place_id;
  match db_place with
  | None => st_raise (HTTPException 404 "Place not found")
  | Some db_place =>
      set_attrs db_place (fun p => Place.mk (Place.id p) (PlaceCreate.name place) (Place.location p));;
      set_attrs db_place (fun p => Place.mk (Place.id p) (Place.name p) (Some (PlaceCreate.location place)));;
      db_commit;;
      db_refresh db_place;;
      db_load db_place
  end.

Definition delete_place (place_id : Z) : Sess Place.t Place.t :=
  db_place ← db_query_first place_id;
  match db_place with
  | None => st_raise (HTTPException 404 "Place not found")
  | Some db_place =>
      db_delete db_place;;
      db_commit;;
      db_load db_place
  end.

(** ** Images (lines 141-179) *)

Definition create_image (image : ImageCreate.t) : Sess Image.t Image.t :=
  db_image ← new_obj (Image.mk None (ImageCreate.filename image) (ImageCreate.url image));
  db_add db_image;;
  db_commit;;
  db_refresh db_image;;
  db_load db_image.

Definition get_images : Sess Image.t (list Image.t) :=
  images ← db_query_all;
  db_load_all images.

Definition get_image (image_id : Z) : Sess Image.t Image.t :=
  image ← db_query_first image_id;
  match image with
  | None => st_raise (HTTPException 404 "Image not found")
  | Some image => db_load image
  end.

Definition update_image (image_id : Z) (image : ImageCreate.t) : Sess Image.t Image.t :=
  db_image ← db_query_first image_id;
  match db_image with
  | None => st_raise (HTTPException 404 "Image not found")
  | Some db_image =>
      set_attrs db_image (fun m => Image.mk (Image.id m) (ImageCreate.filename image) (Image.url m));;
      set_attrs db_image (fun m => Image.mk (Image.id m) (Image.filename m) (ImageCreate.url image));;
      db_commit;;
      db_refresh db_image;;
      db_load db_image
  end.

Definition delete_image (image_id : Z) : Sess Image.t Image.t :=
  db_image ← db_query_first image_id;
  match db_image with
  | None => st_raise (HTTPException 404 "Image not found")
  | Some db_image =>
      db_delete db_image;;
      db_commit;;
      db_load db_image
  end.

(** ** Videos (lines 182-220) *)

Definition create_video (video : VideoCreate.t) : Sess Video.t Video.t :=
  db_video ← new_obj (Video.mk None (VideoCreate.filename video) (VideoCreate.url video));
  db_add db_video;;
  db_commit;;
  db_refresh db_video;;
  db_load db_video.

Definition get_videos : Sess Video.t (list Video.t) :=
  videos ← db_query_all;
  db_load_all videos.

Definition get_video (video_id : Z) : Sess Video.t Video.t :=
  video ← db_query_first video_id;
  match video with
  | None => st_raise (HTTPException 404 "Video not found")
  | Some video => db_load video
  end.

Definition update_video (video_id : Z) (video : VideoCreate.t) : Sess Video.t Video.t :=
  db_video ← db_query_first video_id;
  match db_video with
  | None => st_raise (HTTPException 404 "Video not found")
  | Some db_video =>
      set_attrs db_video (fun v => Video.mk (Video.id v) (VideoCreate.filename video) (Video.url v));;
      set_attrs db_video (fun v => Video.mk (Video.id v) (Video.filename v) (VideoCreate.url video));;
      db_commit;;
      db_refresh db_video;;
      db_load db_video
  end.

Definition delete_video (video_id : Z) : Sess Video.t Video.t :=
  db_video ← db_query_first video_id;
  match db_video with
  | None => st_raise (HTTPException 404 "Video not found")
  | Some db_video =>
      db_delete db_video;;
      db_commit;;
      db_load db_video
  end.

(** ** The four resources under one index

    The four groups of handlers differ only in the model, the schema and
    the field names; [resource] indexes them so that each property below
    is one statement about all twenty handlers. *)
Inductive resource := RCategory | RPlace | RImage | RVideo.

#[export] Instance resource_eq_dec : EqDecision resource.
Proof. solve_decision. Defined.

Definition model (res : resource) : Type :=
  match res with
  | RCategory => Category.t | RPlace => Place.t | RImage => Image.t | RVideo => Video.t
  end.

Definition schema (res : resource) : Type :=
  match res with
  | RCategory => CategoryCreate.t | RPlace => PlaceCreate.t
  | RImage => ImageCreate.t | RVideo => VideoCreate.t
  end.

#[export] Instance model_row (res : resource) : Row (model res) :=
  match res with
  | RCategory => category_row | RPlace => place_row
  | RImage => image_row | RVideo => video_row
  end.

Definition create_h (res : resource) : schema res -> Sess (model res) (model res) :=
  match res with
  | RCategory => create_category | RPlace => create_place
  | RImage => create_image | RVideo => create_video
  end.

Definition list_h (res : resource) : Sess (model res) (list (model res)) :=
  match res with
  | RCategory => get_categories | RPlace => get_places
  | RImage => get_images | RVideo => get_videos
  end.

Definition get_h (res : resource) : Z -> Sess (model res) (model res) :=
  match res with
  | RCategory => get_category | RPlace => get_place
  | RImage => get_image | RVideo => get_video
  end.

Definition update_h (res : resource) : Z -> schema res -> Sess (model res) (model res) :=
  match res with
  | RCategory => update_category | RPlace => update_place
  | RImage => update_image | RVideo => update_video
  end.

Definition delete_h (res : resource) : Z -> Sess (model res) (model res) :=
  match res with
  | RCategory => delete_category | RPlace => delete_place
  | RImage => delete_image | RVideo => delete_video
  end.

(** What the spec expects a row to be after [create(F)] or
    [update(id, F)]: the given id and the fields of [F] (§3, §8). *)
Definition spec_row (res : resource) : schema res -> option Z -> model res :=
  match res with
  | RCategory => fun c i =>
      Category.mk i (CategoryCreate.name c) (Some (CategoryCreate.description c))
  | RPlace => fun p i => Place.mk i (PlaceCreate.name p) (Some (PlaceCreate.location p))
  | RImage => fun m i => Image.mk i (ImageCreate.filename m) (ImageCreate.url m)
  | RVideo => fun v i => Video.mk i (VideoCreate.filename v) (VideoCreate.url v)
  end.

(** The body schema each resource validates requests with, and its
    [response_model]. *)
Definition validate_of (res : resource) : json -> option (schema res) :=
  match res with
  | RCategory => validate_CategoryCreate | RPlace => validate_PlaceCreate
  | RImage => validate_ImageCreate | RVideo => validate_VideoCreate
  end.

Definition response_of (res : resource) : model res -> option json :=
  match res with
  | RCategory => response_CategoryCreate | RPlace => response_PlaceCreate
  | RImage => response_ImageCreate | RVideo => response_VideoCreate
  end.

(** The two body fields of each schema, in declaration order. *)
Definition schema_fields (res : resource) : string * string :=
  match res with
  | RCategory => ("name", "description") | RPlace => ("name", "location")
  | RImage | RVideo => ("filename", "url")
  end.

(** The detail of the 404 each resource raises. *)
Definition not_found_detail (res : resource) : string :=
  match res with
  | RCategory => "Category not found" | RPlace => "Place not found"
  | RImage => "Image not found" | RVideo => "Video not found"
  end.

Lemma spec_row_with_id res (c : schema res) i j :
  row_with_id i (spec_row res c j) = spec_row res c i.
Proof. by destruct res. Qed.

Lemma spec_row_id res (c : schema res) i : row_id (spec_row res c i) = i.
Proof. by destruct res. Qed.

(** Whether psycopg2 accepts the texts of a row does not depend on its id. *)
Lemma texts_ok_spec_row res (c : schema res) i j :
  texts_ok (spec_row res c i) = texts_ok (spec_row res c j).
Proof. by destruct res. Qed.

#[export] Hint Rewrite spec_row_with_id spec_row_id : crud_rw.

(** ** Per-handler results under [get_db] *)

Ltac unfold_handlers :=
  unfold create_category, create_place, create_image, create_video,
    get_categories, get_places, get_images, get_videos,
    get_category, get_place, get_image, get_video,
    update_category, update_place, update_image, update_video,
    delete_category, delete_place, delete_image, delete_video in *.

(** [destruct res] and expose the handler bodies. *)
Ltac by_resource res := destruct res; simpl in *; unfold_handlers.
Section Results.
Implicit Types (res : resource).

(** [create(F)] on a well-formed table, on its three branches. *)
Lemma create_result res (c : schema res) (t : Table (model res)) :
  table_wf t ->
  get_db (create_h res c) t =
    if texts_ok (spec_row res c None) then
      if decide (seq_next t <= SERIAL_MAX)%Z
      then (mkTable (<[seq_next t := spec_row res c (Some (seq_next t))]> (rows t)) (seq_next t + 1),
            inr (spec_row res c (Some (seq_next t))))
      else (t, inl (DBAPIError SequenceExhausted))
    else (t, inl (DBAPIError UnsendableText)).
Proof.
  intros Hwf.
  by_resource res; rewrite get_db_create_wf by done; by destruct (texts_ok _).
Qed.

(** (C1) [create(F)] on a well-formed table whose sequence is not
    exhausted and whose texts psycopg2 accepts: the new row gets the
    next value of the sequence as id and exactly the fields of [F]; it
    is added to the table, the sequence advances by one, and the
    response is that row. *)
Theorem create_spec res (c : schema res) (t : Table (model res)) :
  table_wf t -> texts_ok (spec_row res c None) = true -> (seq_next t <= SERIAL_MAX)%Z ->
  get_db (create_h res c) t =
    (mkTable (<[seq_next t := spec_row res c (Some (seq_next t))]> (rows t)) (seq_next t + 1),
     inr (spec_row res c (Some (seq_next t)))).
Proof. intros Hwf Htxt Hseq. rewrite create_result, Htxt by done. by case_decide. Qed.

(** (C2) [create(F)] fails with a database error, and leaves the table
    exactly as it was (no row, no sequence value consumed), when a text
    holds a NUL character or a lone surrogate, which psycopg2 cannot
    send, or the sequence has reached 2^31 - 1. *)
Theorem create_error res (c : schema res) (t : Table (model res)) :
  table_wf t -> texts_ok (spec_row res c None) = false \/ (SERIAL_MAX < seq_next t)%Z ->
  exists e, get_db (create_h res c) t = (t, inl (DBAPIError e)).
Proof.
  intros Hwf Hfail. rewrite create_result by done.
  destruct Hfail as [-> | Hseq]; [eauto|]. destruct (texts_ok _); [|eauto].
  case_decide; [lia | eauto].
Qed.

(** (C3) [get(id)] never changes the table; it answers the row stored
    under [id], or raises the resource's 404 when there is none. *)
Theorem get_spec res (k : Z) (t : Table (model res)) :
  get_db (get_h res k) t =
    (t, match rows t !! k with
        | None => inl (HTTPException 404 (not_found_detail res))
        | Some r => inr r
        end).
Proof. by_resource res; apply get_db_get. Qed.

(** [update(id, F)] on a well-formed table, on its three branches: no
    row (404), a row and texts psycopg2 accepts (the row is replaced),
    a row and a refused text (nothing changes). *)
Lemma update_result res (k : Z) (c : schema res) (t : Table (model res)) :
  table_wf t ->
  get_db (update_h res k c) t =
    match rows t !! k with
    | None => (t, inl (HTTPException 404 (not_found_detail res)))
    | Some _ =>
        if texts_ok (spec_row res c None)
        then (mkTable (<[k := spec_row res c (Some k)]> (rows t)) (seq_next t),
              inr (spec_row res c (Some k)))
        else (t, inl (DBAPIError UnsendableText))
    end.
Proof.
  intros Hwf. rewrite (texts_ok_spec_row _ _ _ (Some k)).
  destruct (rows t !! k) as [r|] eqn:Hk.
  - pose proof (table_wf_key _ _ _ Hwf Hk) as [Hid _].
    by_resource res; rewrite get_db_update_wf, Hk by (done || by intros []);
      destruct r; simpl in *; by subst.
  - by_resource res; by rewrite get_db_update_wf, Hk by (done || by intros []).
Qed.

(** [delete(id)] on a well-formed table, on its two branches. *)
Lemma delete_result res (k : Z) (t : Table (model res)) :
  table_wf t ->
  get_db (delete_h res k) t =
    match rows t !! k with
    | None => (t, inl (HTTPException 404 (not_found_detail res)))
    | Some r => (delete_row k t, inr r)
    end.
Proof. intros Hwf. by_resource res; rewrite get_db_delete; by destruct (rows t !! k). Qed.

(** (C4) [update(id, F)] on a row that exists replaces all of its
    non-id fields by those of [F], keeps its id, leaves every other row
    and the sequence alone, and answers the updated row. *)
Theorem update_spec res (k : Z) (c : schema res) (t : Table (model res)) (r : model res) :
  table_wf t -> rows t !! k = Some r -> texts_ok (spec_row res c None) = true ->
  get_db (update_h res k c) t =
    (mkTable (<[k := spec_row res c (Some k)]> (rows t)) (seq_next t),
     inr (spec_row res c (Some k))).
Proof. intros Hwf Hk Htxt. by rewrite update_result, Hk, Htxt. Qed.

(** [update(id, F)] on a row that exists, with a text psycopg2 refuses:
    a database error, and the row is left as it was. *)
Theorem update_error res (k : Z) (c : schema res) (t : Table (model res)) (r : model res) :
  table_wf t -> rows t !! k = Some r -> texts_ok (spec_row res c None) = false ->
  get_db (update_h res k c) t = (t, inl (DBAPIError UnsendableText)).
Proof. intros Hwf Hk Htxt. by rewrite update_result, Hk, Htxt. Qed.

(** (C5) [delete(id)] on a row that exists removes exactly that row and
    answers it as it was before the removal. *)
Theorem delete_spec res (k : Z) (t : Table (model res)) (r : model res) :
  table_wf t -> rows t !! k = Some r ->
  get_db (delete_h res k) t = (delete_row k t, inr r).
Proof. intros Hwf Hk. by rewrite delete_result, Hk. Qed.

(** (C6) For an id with no row, get, update and delete all raise the
    resource's 404 and leave the table unchanged. *)
Theorem not_found_spec res (k : Z) (t : Table (model res)) :
  table_wf t -> rows t !! k = None ->
  get_db (get_h res k) t = (t, inl (HTTPException 404 (not_found_detail res))) /\
  (forall c : schema res,
     get_db (update_h res k c) t = (t, inl (HTTPException 404 (not_found_detail res)))) /\
  get_db (delete_h res k) t = (t, inl (HTTPException 404 (not_found_detail res))).
Proof.
  intros Hwf Hk. split; [|split]; [| intros c |];
    by_resource res; by rewrite ?get_db_get, ?get_db_update_wf, ?get_db_delete, Hk
      by (done || by intros []).
Qed.

Lemma list_result res (t : Table (model res)) :
  table_wf t -> get_db (list_h res) t = (t, inr (scan t)).
Proof. intros Hwf. by_resource res; by apply get_db_list. Qed.

(** (C7) [list()] never changes the table and answers every row exactly
    once, in an order the code does not fix. *)
Theorem list_spec res (t : Table (model res)) :
  table_wf t ->
  exists l, get_db (list_h res) t = (t, inr l) /\
    (forall r, r ∈ l <-> exists k, rows t !! k = Some r) /\
    NoDup (row_id <$> l) /\ length l = size (rows t).
Proof.
  intros Hwf. exists (scan t).
  split; [by apply list_result|].
  split; [apply elem_of_scan|]. split; [by apply scan_ids_NoDup | apply length_scan].
Qed.
End Results.

(** ** Requests and responses of the four resources *)
(** A row written from a validated body has no NULL column, so its
    response serialises. *)
Lemma response_spec_row (res : resource) (c : schema res) (i : option Z) :
  is_Some (response_of res (spec_row res c i)).
Proof. destruct res; simpl; eauto. Qed.

Section Responses.
Context {res : resource}.

(** (C25) Round trip: the response for a row written from a body [F]
    (by create or update) serialises, and validating it as a request
    body gives back [F]. *)
Theorem response_roundtrip (c : schema res) (i : option Z) :
  exists j, response_of res (spec_row res c i) = Some j /\ validate_of res j = Some c.
Proof. destruct res, c; eexists; split; reflexivity. Qed.

(** (C26) The response never carries the row id: it is a JSON object
    with no "id" member, and two rows that differ only in their id give
    the same response.  A client of [POST /categories] cannot learn the
    id the row was stored under. *)
Theorem response_drops_id (r : model res) (i j : option Z) :
  response_of res (row_with_id i r) = response_of res (row_with_id j r) /\
  forall m, response_of res r = Some (JObj m) -> obj_get "id" m = None.
Proof.
  split; [by destruct res, r|].
  intros m. destruct res; destruct r;
    repeat match goal with d : option string |- _ => destruct d end;
    intros H; unfold response_of, response_CategoryCreate, response_PlaceCreate, response_ImageCreate,
      response_VideoCreate in H; simpl in H; simplify_eq; reflexivity.
Qed.
End Responses.

(** pydantic v1's [str] field takes a string, an integer or a boolean. *)
Lemma str_field_some k m :
  is_Some (str_field k m) <->
  exists v, obj_get k m = Some v /\ ((exists s, v = JStr s) \/ (exists z, v = JInt z) \/ (exists b, v = JBool b)).
Proof.
  unfold str_field. destruct (obj_get k m) as [v|]; simpl.
  - split.
    + intros [x Hx]. exists v. split; [done|]. destruct v as [|[]| | | |]; simpl in Hx; try discriminate; eauto 6.
    + intros (v' & [= <-] & [[x ->]|[[z ->]|[[] ->]]]); eexists; reflexivity.
  - split; [by intros []|]. by intros (v' & ? & _).
Qed.

(** The four validators read the two fields of the schema from an object. *)
Lemma validate_of_fields (res : resource) (body : json) :
  is_Some (validate_of res body) <->
  exists m, body = JObj m /\
    is_Some (str_field (schema_fields res).1 m) /\ is_Some (str_field (schema_fields res).2 m).
Proof.
  split.
  - destruct res, body as [| | | | |m]; simpl; try by intros [? ?].
    all: intros H; exists m; split; [done|]; revert H;
      destruct (str_field _ m), (str_field _ m); simpl; intros [? ?]; simplify_eq; eauto.
  - intros (m & -> & [a Ha] & [b Hb]). destruct res; simpl in *; rewrite Ha, Hb; eauto.
Qed.

(** (C27) A body is accepted exactly when it is a JSON object in which
    both fields of the schema are present and hold a string, an integer
    or a boolean (pydantic v1 turns the latter two into their [str()]).
    In particular [description] and [location] are required, although
    their columns are nullable, and a missing field means no handler runs
    and no row is written. *)
Theorem validate_accepts (res : resource) (body : json) :
  is_Some (validate_of res body) <->
  exists m, body = JObj m /\
    forall f, f = (schema_fields res).1 \/ f = (schema_fields res).2 ->
      exists v, obj_get f m = Some v /\
        ((exists s, v = JStr s) \/ (exists z, v = JInt z) \/ (exists b, v = JBool b)).
Proof.
  rewrite validate_of_fields. split.
  - intros (m & -> & H1 & H2). exists m. split; [done|].
    intros f [-> | ->]; by apply str_field_some.
  - intros (m & -> & H). exists m. split_and!; [done|apply str_field_some, H; by left|apply str_field_some, H; by right].
Qed.

(** ** Examples on concrete data

    A categories table holding the spec's "Parks" row under id 1, with
    the sequence at 2, and request bodies for it. *)
Definition parks_table : Table (model RCategory) :=
  mkTable {[1%Z := Category.mk (Some 1%Z) "Parks" (Some "Green spaces")]} 2%Z.

Definition lakes : CategoryCreate.t := CategoryCreate.mk "Lakes" "Water".

(** A name holding a NUL byte, which pydantic accepts and psycopg2 refuses. *)
Definition nul_name : CategoryCreate.t := CategoryCreate.mk (String "000"%char EmptyString) "x".

Ltac wf_by_computation := apply (bool_decide_unpack _); vm_compute; exact I.

Lemma create_spec_witness :
  get_db (create_h RCategory lakes) parks_table =
    (mkTable (<[seq_next parks_table := spec_row RCategory lakes (Some (seq_next parks_table))]>
                (rows parks_table)) (seq_next parks_table + 1),
     inr (spec_row RCategory lakes (Some (seq_next parks_table)))).
Proof. apply create_spec; [wf_by_computation | reflexivity | vm_compute; congruence]. Defined.

Lemma create_error_witness :
  exists e, get_db (create_h RCategory nul_name) parks_table = (parks_table, inl (DBAPIError e)).
Proof. apply create_error; [wf_by_computation | left; reflexivity]. Defined.

Lemma update_spec_witness :
  get_db (update_h RCategory 1%Z lakes) parks_table =
    (mkTable (<[1%Z := spec_row RCategory lakes (Some 1%Z)]> (rows parks_table)) (seq_next parks_table),
     inr (spec_row RCategory lakes (Some 1%Z))).
Proof.
  apply (update_spec RCategory 1%Z lakes parks_table (Category.mk (Some 1%Z) "Parks" (Some "Green spaces")));
    [wf_by_computation | reflexivity | reflexivity].
Defined.

Lemma delete_spec_witness :
  get_db (delete_h RCategory 1%Z) parks_table =
    (delete_row 1%Z parks_table, inr (Category.mk (Some 1%Z) "Parks" (Some "Green spaces"))).
Proof. apply delete_spec; [wf_by_computation | reflexivity]. Defined.

Lemma not_found_spec_witness :
  get_db (get_h RCategory 7%Z) parks_table = (parks_table, inl (HTTPException 404 "Category not found")) /\
  (forall c : schema RCategory,
     get_db (update_h RCategory 7%Z c) parks_table = (parks_table, inl (HTTPException 404 "Category not found"))) /\
  get_db (delete_h RCategory 7%Z) parks_table = (parks_table, inl (HTTPException 404 "Category not found")).
Proof. apply not_found_spec; [wf_by_computation | reflexivity]. Defined.

Lemma list_spec_witness :
  exists l, get_db (list_h RCategory) parks_table = (parks_table, inr l) /\
    (forall r, r ∈ l <-> exists k, rows parks_table !! k = Some r) /\
    NoDup (row_id <$> l) /\ length l = size (rows parks_table).
Proof. apply list_spec. wf_by_computation. Defined.
