(* ===== verification/Crud.v ===== *)
(** * Crud: the CRUD contract of the spec and its refinement

    The spec (§4.1, §7, §8) describes each resource by five operations on
    a table of rows, with three kinds of outcome: the entity (or the list
    of entities), Not-Found, and a server error for storage failures.
    This file states that contract as a relation [spec_step] on the rows
    alone, runs the handlers of [Handlers.v] as one step [run_op] per
    request (each under its own [get_db] session), and proves:

    - the table invariant is kept by every operation ([run_op_wf]);
    - every run of a handler is a step the contract allows
      ([run_op_refines]), the refinement of the spec by the code;
    - over any sequence of requests: the ids handed out by successful
      creates strictly increase, so an id is never reused even after its
      row is deleted ([run_ops_ids]); and the number of rows is the
      number of successful creates minus the number of successful
      deletes ([run_ops_size]). *)

From S2P Require Import Prelude Storage Session Models Schemas Handlers.
From Stdlib Require Import Sorted.

(** One request of a resource, with its path and body parameters already
    converted. *)
Inductive crud_op (res : resource) :=
  | OpCreate (c : schema res)
  | OpList
  | OpGet (k : Z)
  | OpUpdate (k : Z) (c : schema res)
  | OpDelete (k : Z).
Arguments OpCreate {res} _.
Arguments OpList {res}.
Arguments OpGet {res} _.
Arguments OpUpdate {res} _ _.
Arguments OpDelete {res} _.

Inductive crud_out (res : resource) :=
  | OutRow (r : model res)
  | OutRows (l : list (model res)).
Arguments OutRow {res} _.
Arguments OutRows {res} _.

(** The endpoint called by FastAPI with [db: Session = Depends(get_db)]. *)
Definition run_op {res} (o : crud_op res) (t : Table (model res))
    : Table (model res) * (exc + crud_out res) :=
  match o with
  | OpCreate c => let '(t', x) := get_db (create_h res c) t in (t', res_map OutRow x)
  | OpList => let '(t', x) := get_db (list_h res) t in (t', res_map OutRows x)
  | OpGet k => let '(t', x) := get_db (get_h res k) t in (t', res_map OutRow x)
  | OpUpdate k c => let '(t', x) := get_db (update_h res k c) t in (t', res_map OutRow x)
  | OpDelete k => let '(t', x) := get_db (delete_h res k) t in (t', res_map OutRow x)
  end.

(** ** The contract *)

Inductive outcome (res : resource) :=
  | Ok (out : crud_out res)
  | NotFound
  | ServerError.
Arguments Ok {res} _.
Arguments NotFound {res}.
Arguments ServerError {res}.

(** The handler boundary of §7: a 404 [HTTPException] is Not-Found,
    every other exception a server error. *)
Definition classify {res} (x : exc + crud_out res) : outcome res :=
  match x with
  | inr out => Ok out
  | inl (HTTPException 404 _) => NotFound
  | inl _ => ServerError
  end.

(** [spec_step rs o rs' out]: from the rows [rs], operation [o] may lead
    to the rows [rs'] with outcome [out].  A create picks any unused id;
    a write may fail with a server error and then changes nothing; reads
    never fail and never change anything; a list answers the rows in any
    order. *)
Inductive spec_step {res} : gmap Z (model res) -> crud_op res -> gmap Z (model res) -> outcome res -> Prop :=
  | SCreate rs c k :
      rs !! k = None ->
      spec_step rs (OpCreate c) (<[k := spec_row res c (Some k)]> rs) (Ok (OutRow (spec_row res c (Some k))))
  | SCreateFail rs c : spec_step rs (OpCreate c) rs ServerError
  | SList rs l :
      l ≡ₚ snd <$> map_to_list rs -> spec_step rs OpList rs (Ok (OutRows l))
  | SGet rs k r : rs !! k = Some r -> spec_step rs (OpGet k) rs (Ok (OutRow r))
  | SGetNone rs k : rs !! k = None -> spec_step rs (OpGet k) rs NotFound
  | SUpdate rs k c r :
      rs !! k = Some r ->
      spec_step rs (OpUpdate k c) (<[k := spec_row res c (Some k)]> rs) (Ok (OutRow (spec_row res c (Some k))))
  | SUpdateFail rs k c r : rs !! k = Some r -> spec_step rs (OpUpdate k c) rs ServerError
  | SUpdateNone rs k c : rs !! k = None -> spec_step rs (OpUpdate k c) rs NotFound
  | SDelete rs k r : rs !! k = Some r -> spec_step rs (OpDelete k) (delete k rs) (Ok (OutRow r))
  | SDeleteNone rs k : rs !! k = None -> spec_step rs (OpDelete k) rs NotFound.

(** ** Sequences of requests *)

Fixpoint run_ops {res} (os : list (crud_op res)) (t : Table (model res))
    : Table (model res) * list (exc + crud_out res) :=
  match os with
  | [] => (t, [])
  | o :: os' =>
      let '(t1, x) := run_op o t in
      let '(t2, xs) := run_ops os' t1 in
      (t2, x :: xs)
  end.

(** The ids of the rows answered by successful creates, in order. *)
Fixpoint created_ids {res} (os : list (crud_op res)) (xs : list (exc + crud_out res)) : list Z :=
  match os, xs with
  | OpCreate _ :: os', inr (OutRow r) :: xs' =>
      match row_id r with Some k => k :: created_ids os' xs' | None => created_ids os' xs' end
  | _ :: os', _ :: xs' => created_ids os' xs'
  | _, _ => []
  end.

Fixpoint count_ok {res} (is_op : crud_op res -> bool) (os : list (crud_op res))
    (xs : list (exc + crud_out res)) : nat :=
  match os, xs with
  | o :: os', inr _ :: xs' => (if is_op o then 1 else 0) + count_ok is_op os' xs'
  | _ :: os', _ :: xs' => count_ok is_op os' xs'
  | _, _ => 0
  end.

Definition is_create {res} (o : crud_op res) : bool :=
  match o with OpCreate _ => true | _ => false end.
Definition is_delete {res} (o : crud_op res) : bool :=
  match o with OpDelete _ => true | _ => false end.

(** ** One request as table statements

    [table_step] says what one request does directly in terms of the
    table: the reference the session-level run is compared with. *)
Definition table_step {res} (o : crud_op res) (t : Table (model res))
    : Table (model res) * (exc + crud_out res) :=
  let e404 := HTTPException 404 (not_found_detail res) in
  match o with
  | OpCreate c =>
      if texts_ok (spec_row res c None) then
        if decide (seq_next t <= SERIAL_MAX)%Z
        then (mkTable (<[seq_next t := spec_row res c (Some (seq_next t))]> (rows t)) (seq_next t + 1),
              inr (OutRow (spec_row res c (Some (seq_next t)))))
        else (t, inl (DBAPIError SequenceExhausted))
      else (t, inl (DBAPIError UnsendableText))
  | OpList => (t, inr (OutRows (scan t)))
  | OpGet k =>
      (t, match rows t !! k with None => inl e404 | Some r => inr (OutRow r) end)
  | OpUpdate k c =>
      match rows t !! k with
      | None => (t, inl e404)
      | Some _ =>
          if texts_ok (spec_row res c None)
          then (mkTable (<[k := spec_row res c (Some k)]> (rows t)) (seq_next t),
                inr (OutRow (spec_row res c (Some k))))
          else (t, inl (DBAPIError UnsendableText))
      end
  | OpDelete k =>
      match rows t !! k with
      | None => (t, inl e404)
      | Some r => (delete_row k t, inr (OutRow r))
      end
  end.

(** A sequence of requests as table statements. *)
Fixpoint table_steps {res} (os : list (crud_op res)) (t : Table (model res))
    : Table (model res) * list (exc + crud_out res) :=
  match os with
  | [] => (t, [])
  | o :: os' =>
      let '(t1, x) := table_step o t in
      let '(t2, xs) := table_steps os' t1 in
      (t2, x :: xs)
  end.

Section Refinement.
Context {res : resource}.
Implicit Types (o : crud_op res) (t : Table (model res)).

(** On a well-formed table, running a handler through the ORM session
    (objects, identity map, flush, expiry, refresh, close) has exactly
    the effect and result of [table_step]. *)
Theorem run_op_eq o t : table_wf t -> run_op o t = table_step o t.
Proof.
  intros Hwf. destruct o as [c| |k|k c|k]; simpl.
  - rewrite create_result by done. by destruct (texts_ok _); [case_decide|].
  - by rewrite list_result.
  - clear Hwf. by_resource res; rewrite get_db_get; by destruct (rows t !! k).
  - rewrite update_result by done. destruct (rows t !! k); [by destruct (texts_ok _) | done].
  - rewrite delete_result by done. by destruct (rows t !! k).
Qed.

Lemma table_step_wf o t : table_wf t -> table_wf (fst (table_step o t)).
Proof.
  intros Hwf. destruct o as [c| |k|k c|k]; simpl; [| done | done | |].
  - pose proof (insert_row_wf (spec_row res c None) t Hwf) as Hins.
    rewrite insert_row_eq in Hins by done.
    destruct (texts_ok _); [|done]. case_decide; [|done].
    simpl in *. by autorewrite with crud_rw in Hins.
  - destruct (rows t !! k) as [r|] eqn:Hk; [|done].
    pose proof (update_row_wf k (spec_row res c None) t Hwf) as Hup.
    unfold update_row in Hup. rewrite Hk in Hup.
    destruct (texts_ok _); [|done]. simpl in *. by autorewrite with crud_rw in Hup.
  - destruct (rows t !! k); [by apply delete_row_wf | done].
Qed.

Lemma table_step_refines o t :
  table_wf t -> spec_step (rows t) o (rows (fst (table_step o t))) (classify (snd (table_step o t))).
Proof.
  intros Hwf. destruct o as [c| |k|k c|k]; simpl.
  - destruct (texts_ok _); [case_decide|]; simpl; try constructor.
    by apply table_wf_fresh.
  - constructor. done.
  - destruct (rows t !! k) eqn:Hk; by econstructor.
  - destruct (rows t !! k) eqn:Hk; [destruct (texts_ok _)|]; by econstructor.
  - destruct (rows t !! k) eqn:Hk; by econstructor.
Qed.

(** Every request keeps the table invariant. *)
Theorem run_op_wf o t : table_wf t -> table_wf (fst (run_op o t)).
Proof. intros Hwf. rewrite run_op_eq by done. by apply table_step_wf. Qed.

(** (C10) Refinement: every run of a handler on a well-formed table is a
    step the CRUD contract of the spec allows, with the outcome the
    handler boundary reports (entity, Not-Found or server error). *)
Theorem run_op_refines o t :
  table_wf t -> spec_step (rows t) o (rows (fst (run_op o t))) (classify (snd (run_op o t))).
Proof. intros Hwf. rewrite run_op_eq by done. by apply table_step_refines. Qed.
End Refinement.

(** ** Sequences of requests *)
Section Traces.
Context {res : resource}.
Implicit Types (o : crud_op res) (t : Table (model res)).

Lemma run_ops_cons o os t :
  run_ops (o :: os) t =
    (fst (run_ops os (fst (run_op o t))), snd (run_op o t) :: snd (run_ops os (fst (run_op o t)))).
Proof. simpl. by destruct (run_op o t), (run_ops os _). Qed.

Lemma run_ops_wf os t : table_wf t -> table_wf (fst (run_ops os t)).
Proof.
  revert t. induction os as [|o os IH]; intros t Hwf; [done|].
  rewrite run_ops_cons. apply IH, run_op_wf, Hwf.
Qed.

(** (C8) Equivalence over traces: from a well-formed table, any sequence
    of requests run through the ORM session, each under its own
    [get_db], has exactly the effects and results of the same sequence
    of table statements [table_step]. *)
Theorem run_ops_table_steps os t : table_wf t -> run_ops os t = table_steps os t.
Proof.
  revert t. induction os as [|o os IH]; intros t Hwf; [done|]. simpl.
  rewrite run_op_eq by done.
  pose proof (table_step_wf o t Hwf) as Hwf1.
  destruct (table_step o t) as [t1 x]. simpl in Hwf1. by rewrite IH.
Qed.

(** What one step does to the sequence and to the number of rows,
    read off [table_step]. *)
Lemma table_step_seq o t :
  table_wf t ->
  match o, snd (table_step o t) with
  | OpCreate _, inr (OutRow r) =>
      row_id r = Some (seq_next t) /\ seq_next (fst (table_step o t)) = (seq_next t + 1)%Z
  | _, _ => seq_next (fst (table_step o t)) = seq_next t
  end.
Proof.
  intros Hwf. destruct o as [c| |k|k c|k]; simpl.
  - destruct (texts_ok _); [case_decide|]; simpl; by autorewrite with crud_rw.
  - done.
  - by destruct (rows t !! k).
  - destruct (rows t !! k); [destruct (texts_ok _)|]; done.
  - by destruct (rows t !! k).
Qed.

Lemma table_step_size o t :
  table_wf t ->
  (size (rows (fst (table_step o t))) +
     (if is_delete o then match snd (table_step o t) with inr _ => 1 | inl _ => 0 end else 0) =
   size (rows t) +
     (if is_create o then match snd (table_step o t) with inr _ => 1 | inl _ => 0 end else 0))%nat.
Proof.
  intros Hwf. destruct o as [c| |k|k c|k]; simpl.
  - destruct (texts_ok _); [case_decide|]; simpl; [|lia..].
    rewrite map_size_insert_None by (apply table_wf_fresh; done || lia). lia.
  - lia.
  - lia.
  - destruct (rows t !! k) eqn:Hk; [destruct (texts_ok _)|]; simpl; [|lia..].
    rewrite map_size_insert_Some by eauto. lia.
  - destruct (rows t !! k) eqn:Hk; simpl; [|lia].
    rewrite map_size_delete_Some by eauto. pose proof (map_size_ne_0_lookup_2 (rows t) k ltac:(eauto)).
    lia.
Qed.

Lemma run_op_seq o t t1 x :
  table_wf t -> run_op o t = (t1, x) ->
  match o, x with
  | OpCreate _, inr (OutRow r) => row_id r = Some (seq_next t) /\ seq_next t1 = (seq_next t + 1)%Z
  | _, _ => seq_next t1 = seq_next t
  end.
Proof.
  intros Hwf Ho. pose proof (table_step_seq o t Hwf) as Hs.
  destruct o; rewrite <- run_op_eq, Ho in Hs by done; exact Hs.
Qed.

Lemma run_op_size o t t1 x :
  table_wf t -> run_op o t = (t1, x) ->
  (size (rows t1) + (if is_delete o then match x with inr _ => 1 | inl _ => 0 end else 0) =
   size (rows t) + (if is_create o then match x with inr _ => 1 | inl _ => 0 end else 0))%nat.
Proof.
  intros Hwf Ho. pose proof (table_step_size o t Hwf) as Hs.
  rewrite <- run_op_eq, Ho in Hs by done. exact Hs.
Qed.

(** (C11) Ids are never reused: along any sequence of requests from a
    well-formed table, the ids of the rows created are strictly
    increasing and lie between the sequence before and after, so none
    of them is the id of a row that existed or was deleted before. *)
Theorem run_ops_ids os t t' xs :
  table_wf t -> run_ops os t = (t', xs) ->
  Sorted Z.lt (created_ids os xs) /\
  Forall (fun k => seq_next t <= k < seq_next t')%Z (created_ids os xs) /\
  (seq_next t <= seq_next t')%Z.
Proof.
  revert t t' xs. induction os as [|o os IH]; intros t t' xs Hwf Hrun.
  { simpl in Hrun. simplify_eq. split; [constructor|]. split; [constructor | lia]. }
  pose proof (run_op_wf o t Hwf) as Hwf1.
  simpl in Hrun. destruct (run_op o t) as [t1 x] eqn:Ho.
  pose proof (run_op_seq o t t1 x Hwf Ho) as Hstep.
  destruct (run_ops os t1) as [t2 xs'] eqn:Hos. simplify_eq. simpl in Hwf1.
  destruct (IH t1 t' xs' Hwf1 Hos) as (Hsort & Hrange & Hmono).
  assert (Hkeep : seq_next t1 = seq_next t ->
                  Sorted Z.lt (created_ids os xs') /\
                  Forall (fun k => seq_next t <= k < seq_next t')%Z (created_ids os xs') /\
                  (seq_next t <= seq_next t')%Z).
  { intros Heq. rewrite Heq in Hrange, Hmono.
    split; [done|]. split; [eapply Forall_impl; [|exact Hrange]; simpl; intros; lia | lia]. }
  destruct o as [c| |k|k c|k]; [destruct x as [e|[r|l]]|..]; cbn [created_ids]; auto.
  destruct Hstep as [-> Hseq]. rewrite Hseq in Hrange, Hmono.
  split; [|split].
  - constructor; [done|]. destruct (created_ids os xs') as [|k' ks]; constructor.
    inversion Hrange; subst. lia.
  - constructor; [lia|]. eapply Forall_impl; [|exact Hrange]. simpl. intros; lia.
  - lia.
Qed.

Lemma run_ops_size os t t' xs :
  table_wf t -> run_ops os t = (t', xs) ->
  (size (rows t') + count_ok is_delete os xs = size (rows t) + count_ok is_create os xs)%nat.
Proof.
  revert t t' xs. induction os as [|o os IH]; intros t t' xs Hwf Hrun.
  { simpl in Hrun. simplify_eq. simpl. lia. }
  pose proof (run_op_wf o t Hwf) as Hwf1.
  simpl in Hrun. destruct (run_op o t) as [t1 x] eqn:Ho.
  pose proof (run_op_size o t t1 x Hwf Ho) as Hsz.
  destruct (run_ops os t1) as [t2 xs'] eqn:Hos. simplify_eq. simpl in Hwf1.
  pose proof (IH t1 t' xs' Hwf1 Hos) as IHo.
  destruct o, x; cbn [count_ok is_create is_delete] in *; lia.
Qed.

(** (C12) The spec's counting property: from an empty table, after any
    sequence of requests of which [n] creates and [m] deletes succeed,
    [list()] answers exactly [n - m] rows. *)
Theorem list_after_ops os t' xs :
  run_ops os empty_table = (t', xs) ->
  exists l, run_op OpList t' = (t', inr (OutRows l)) /\
    (length l + count_ok is_delete os xs = count_ok is_create os xs)%nat.
Proof.
  intros Hrun.
  pose proof (run_ops_wf os empty_table empty_table_wf) as Hwf. rewrite Hrun in Hwf.
  pose proof (run_ops_size os empty_table t' xs empty_table_wf Hrun) as Hsz.
  exists (scan t'). rewrite run_op_eq by done. split; [done|].
  rewrite length_scan. simpl in Hsz. rewrite map_size_empty in Hsz. lia.
Qed.
End Traces.

(** ** What the client sees: responses *)
Section Responses.
Context {res : resource}.
Implicit Types (t : Table (model res)).



(** Every nullable text column of every row holds a value. *)
Definition rows_serialisable t : Prop :=
  map_Forall (fun _ r => is_Some (response_of res r)) (rows t).

(** Rows written through the API always serialise (their nullable
    columns are never NULL), one request keeps that so, and every row it
    answers serialises through the [response_model]. *)
Theorem run_op_serialisable_step (o : crud_op res) t :
  table_wf t -> rows_serialisable t ->
  rows_serialisable (fst (run_op o t)) /\
  match snd (run_op o t) with
  | inr (OutRow r) => is_Some (response_of res r)
  | inr (OutRows l) => Forall (fun r => is_Some (response_of res r)) l
  | inl _ => True
  end.
Proof.
  intros Hwf Hser. rewrite run_op_eq by done.
  pose proof (response_spec_row res) as Hspec.
  destruct o as [c| |k|k c|k]; simpl.
  - destruct (texts_ok _); [case_decide|]; simpl; [|done..].
    split; [apply map_Forall_insert_2|]; auto.
  - split; [done|]. apply Forall_forall. intros r Hr%list_elem_of_In%elem_of_scan.
    destruct Hr as [k Hk]. exact (Hser k r Hk).
  - split; [done|]. destruct (rows t !! k) eqn:Hk; [exact (Hser k _ Hk) | done].
  - destruct (rows t !! k) eqn:Hk; [destruct (texts_ok _)|]; simpl; [|done..].
    split; [apply map_Forall_insert_2|]; auto.
  - destruct (rows t !! k) eqn:Hk; simpl; [|done].
    split; [by apply map_Forall_delete | exact (Hser k _ Hk)].
Qed.
(** What the client receives for one request serialises. *)
Definition out_serialisable (x : exc + crud_out res) : Prop :=
  match x with
  | inr (OutRow r) => is_Some (response_of res r)
  | inr (OutRows l) => Forall (fun r => is_Some (response_of res r)) l
  | inl _ => True
  end.

(** (C9) Invariant over traces: from a well-formed table whose rows all
    serialise (in particular from an empty one), any sequence of
    requests keeps the table invariant (keys are ids, ids below the
    sequence) and the absence of NULL in the nullable columns, and no
    answer along the way fails in the [response_model]. *)
Theorem run_ops_invariant os t t' xs :
  table_wf t -> rows_serialisable t -> run_ops os t = (t', xs) ->
  table_wf t' ∧ rows_serialisable t' ∧ Forall out_serialisable xs.
Proof.
  revert t t' xs. induction os as [|o os IH]; intros t t' xs Hwf Hser Hrun.
  { simpl in Hrun. simplify_eq. split; [done|]. split; [done | constructor]. }
  simpl in Hrun. destruct (run_op o t) as [t1 x] eqn:Ho.
  pose proof (run_op_wf o t Hwf) as Hwf1. pose proof (run_op_serialisable_step o t Hwf Hser) as [Hser1 Hx].
  rewrite Ho in Hwf1, Hser1, Hx. simpl in *.
  destruct (run_ops os t1) as [t2 xs'] eqn:Hos. simplify_eq.
  destruct (IH t1 t' xs' Hwf1 Hser1 Hos) as (? & ? & ?).
  split; [done|]. split; [done|]. by constructor; [exact Hx|].
Qed.
End Responses.


(** ** Examples on concrete data *)

(** Create "Lakes", delete the "Parks" row, create "Lakes" again. *)
Definition sample_ops : list (crud_op RCategory) :=
  [OpCreate (res:=RCategory) lakes; OpDelete 1%Z; OpCreate (res:=RCategory) lakes].

Lemma run_ops_table_steps_witness :
  run_ops sample_ops parks_table = table_steps sample_ops parks_table.
Proof. apply run_ops_table_steps. wf_by_computation. Defined.

Lemma run_op_refines_witness :
  spec_step (res:=RCategory) (rows parks_table) (OpDelete 1%Z)
    (rows (fst (run_op (OpDelete 1%Z) parks_table))) (classify (snd (run_op (OpDelete 1%Z) parks_table))).
Proof. apply run_op_refines. wf_by_computation. Defined.

Lemma run_ops_ids_witness :
  exists t' xs, run_ops sample_ops parks_table = (t', xs) /\
    Sorted Z.lt (created_ids sample_ops xs) /\
    Forall (fun k => seq_next parks_table <= k < seq_next t')%Z (created_ids sample_ops xs) /\
    (seq_next parks_table <= seq_next t')%Z.
Proof.
  eexists _, _. split; [reflexivity|].
  apply (run_ops_ids sample_ops parks_table); [wf_by_computation | reflexivity].
Defined.

Lemma list_after_ops_witness :
  exists t' xs, run_ops sample_ops empty_table = (t', xs) /\
    exists l, run_op OpList t' = (t', inr (OutRows l)) /\
      (length l + count_ok is_delete sample_ops xs = count_ok is_create sample_ops xs)%nat.
Proof.
  eexists _, _. split; [reflexivity|]. apply list_after_ops. reflexivity.
Defined.

Lemma run_ops_invariant_witness :
  exists t' xs, run_ops sample_ops parks_table = (t', xs) ∧
    (table_wf t' ∧ rows_serialisable t' ∧ Forall out_serialisable xs).
Proof.
  eexists _, _. split; [reflexivity|].
  apply (run_ops_invariant sample_ops parks_table); [wf_by_computation | | reflexivity].
  apply (bool_decide_unpack _); vm_compute; exact I.
Defined.
