(* ===== verification/Routing.v ===== *)
(** * Routing: the route table of [src/main.py] and Starlette's router

    Each decorator [@app.get("/places{place_id}", ...)] of [src/main.py]
    adds one route (path template, methods, endpoint) to [app.router],
    after the four documentation routes that [FastAPI()] adds first
    ([/openapi.json], [/docs], [/docs/oauth2-redirect], [/redoc], each
    for GET and HEAD).  A request is dispatched by Starlette's
    [Router.app]:

    - each route's template is compiled to the regex
      [^<literal>(?P<name>[^/]+)...$] ([compile_path]) and tried with
      [re.match]; Python's [$] also matches just before a final newline;
    - the first route whose path and method match handles the request;
      if none does, the first route whose path matched (with another
      method) answers 405 with [Allow] listing that route's methods;
    - otherwise, unless the path is ["/"], the path with its trailing
      slashes stripped (or with one slash appended) is tried against
      every route, and a match answers a 307 redirect to it;
    - otherwise 404 ["Not Found"].

    The decorators' templates are kept as the source writes them, with
    the missing slash of the place, image and video id routes. *)

From S2P Require Import Prelude PyBuiltins Storage Session Models Schemas Handlers.

Inductive http_method := GET | HEAD | POST | PUT | DELETE | PATCH | OPTIONS.

#[export] Instance http_method_eq_dec : EqDecision http_method.
Proof. solve_decision. Defined.

(** The five operations of a resource. *)
Inductive op_kind := KCreate | KList | KGet | KUpdate | KDelete.

#[export] Instance op_kind_eq_dec : EqDecision op_kind.
Proof. solve_decision. Defined.

(** What a route runs: one of the documentation pages, or one of the
    twenty handlers of [Handlers.v], named by resource and operation. *)
Inductive endpoint :=
  | EOpenapi | ESwaggerUI | ESwaggerRedirect | ERedoc
  | EApi (res : resource) (k : op_kind).

#[export] Instance endpoint_eq_dec : EqDecision endpoint.
Proof. solve_decision. Defined.

Record route := mkRoute { r_path : string; r_methods : list http_method; r_endpoint : endpoint }.

(** A compiled template: literal text and [{name}] parameters. *)
Inductive piece := PLit (s : string) | PParam (name : string).

Definition lit_piece (acc : string) : list piece :=
  match acc with EmptyString => [] | _ => [PLit acc] end.

(** Starlette [compile_path]: the text between [{] and [}] names a
    parameter (the default [str] convertor, regex [[^/]+]); the rest is
    literal.  [acc] is the text read since the last piece. *)
Fixpoint compile_go (s : string) (in_param : bool) (acc : string) : list piece :=
  match s with
  | EmptyString => if in_param then [PLit (String "{" acc)] else lit_piece acc
  | String c r =>
      if in_param then
        if Ascii.eqb c "}" then PParam acc :: compile_go r false EmptyString
        else compile_go r true (String.append acc (String c EmptyString))
      else if Ascii.eqb c "{" then lit_piece acc ++ compile_go r true EmptyString
      else compile_go r false (String.append acc (String c EmptyString))
  end.

Definition compile_path (template : string) : list piece := compile_go template false EmptyString.

(** The ways [[^/]+] can match at the start of [s], longest first (the
    order in which the greedy regex tries them). *)
Fixpoint nonslash_splits (s : string) : list (string * string) :=
  match s with
  | EmptyString => []
  | String c r =>
      if Ascii.eqb c "/" then []
      else ((fun '(v, rest) => (String c v, rest)) <$> nonslash_splits r) ++ [(String c EmptyString, r)]
  end.

(** Python's [$]: the end of the string, or a final newline. *)
Definition at_end (s : string) : bool :=
  match s with
  | EmptyString => true
  | String c r => Ascii.eqb c "010" && match r with EmptyString => true | _ => false end
  end.

(** [re.match] of the compiled template on a path: the parameters'
    values, in template order, of the first match the backtracking
    search finds. *)
Fixpoint match_pieces (ps : list piece) (s : string) : option (list (string * string)) :=
  match ps with
  | [] => if at_end s then Some [] else None
  | PLit l :: ps' => s' ← strip_prefix l s; match_pieces ps' s'
  | PParam x :: ps' =>
      (fix try (cands : list (string * string)) :=
         match cands with
         | [] => None
         | (v, rest) :: cs =>
             match match_pieces ps' rest with
             | Some b => Some ((x, v) :: b)
             | None => try cs
             end
         end) (nonslash_splits s)
  end.

Inductive match_result := MNone | MPartial | MFull (params : list (string * string)).

(** [Route.matches]: FULL when path and method match, PARTIAL when only
    the path does. *)
Definition route_matches (r : route) (m : http_method) (path : string) : match_result :=
  match match_pieces (compile_path (r_path r)) path with
  | None => MNone
  | Some ps => if bool_decide (m ∈ r_methods r) then MFull ps else MPartial
  end.

Inductive dispatch :=
  | DRoute (e : endpoint) (params : list (string * string))
  | DMethodNotAllowed (allow : list http_method)
  | DRedirect (path : string)
  | DNotFound.

(** [path.rstrip("/")]. *)
Fixpoint rstrip_slash (s : string) : string :=
  match s with
  | EmptyString => EmptyString
  | String c r =>
      match rstrip_slash r with
      | EmptyString => if Ascii.eqb c "/" then EmptyString else String c EmptyString
      | r' => String c r'
      end
  end.

Fixpoint ends_with_slash (s : string) : bool :=
  match s with
  | EmptyString => false
  | String c EmptyString => Ascii.eqb c "/"
  | String _ r => ends_with_slash r
  end.

(** The [redirect_slashes] fallback of [Router.app]. *)
Definition redirect_or_404 (rs : list route) (m : http_method) (path : string) : dispatch :=
  if String.eqb path "/" then DNotFound
  else
    let path' := if ends_with_slash path then rstrip_slash path else String.append path "/" in
    if existsb (fun r => match route_matches r m path' with MNone => false | _ => true end) rs
    then DRedirect path' else DNotFound.

(** The loop of [Router.app] over [self.routes], remembering the first
    partial match. *)
Fixpoint router_loop (rs : list route) (m : http_method) (path : string)
    (partial : option route) (all : list route) : dispatch :=
  match rs with
  | [] =>
      match partial with
      | Some r => DMethodNotAllowed (r_methods r)
      | None => redirect_or_404 all m path
      end
  | r :: rs' =>
      match route_matches r m path with
      | MFull ps => DRoute (r_endpoint r) ps
      | MPartial => router_loop rs' m path (if partial is Some _ then partial else Some r) all
      | MNone => router_loop rs' m path partial all
      end
  end.

Definition route_request (rs : list route) (m : http_method) (path : string) : dispatch :=
  router_loop rs m path None rs.

(** [app.router.routes]: the documentation routes of [FastAPI.setup],
    then the decorators of [src/main.py] in source order. *)
Definition routes : list route := [
  mkRoute "/openapi.json" [GET; HEAD] EOpenapi;
  mkRoute "/docs" [GET; HEAD] ESwaggerUI;
  mkRoute "/docs/oauth2-redirect" [GET; HEAD] ESwaggerRedirect;
  mkRoute "/redoc" [GET; HEAD] ERedoc;
  mkRoute "/categories" [POST] (EApi RCategory KCreate);
  mkRoute "/categories" [GET] (EApi RCategory KList);
  mkRoute "/categories/{category_id}" [GET] (EApi RCategory KGet);
  mkRoute "/categories/{category_id}" [PUT] (EApi RCategory KUpdate);
  mkRoute "/categories/{category_id}" [DELETE] (EApi RCategory KDelete);
  mkRoute "/places" [POST] (EApi RPlace KCreate);
  mkRoute "/places" [GET] (EApi RPlace KList);
  mkRoute "/places{place_id}" [GET] (EApi RPlace KGet);
  mkRoute "/places{place_id}" [PUT] (EApi RPlace KUpdate);
  mkRoute "/places{place_id}" [DELETE] (EApi RPlace KDelete);
  mkRoute "/images" [POST] (EApi RImage KCreate);
  mkRoute "/images" [GET] (EApi RImage KList);
  mkRoute "/images{image_id}" [GET] (EApi RImage KGet);
  mkRoute "/images{image_id}" [PUT] (EApi RImage KUpdate);
  mkRoute "/images{image_id}" [DELETE] (EApi RImage KDelete);
  mkRoute "/videos" [POST] (EApi RVideo KCreate);
  mkRoute "/videos" [GET] (EApi RVideo KList);
  mkRoute "/videos{video_id}" [GET] (EApi RVideo KGet);
  mkRoute "/videos{video_id}" [PUT] (EApi RVideo KUpdate);
  mkRoute "/videos{video_id}" [DELETE] (EApi RVideo KDelete)
].

(** The name of the id parameter of each resource's handlers
    ([def get_category(category_id: int, ...)] and so on). *)
Definition id_param (res : resource) : string :=
  match res with
  | RCategory => "category_id" | RPlace => "place_id"
  | RImage => "image_id" | RVideo => "video_id"
  end.

(** The paths the decorators give each resource: the collection, and
    the prefix of an item's path, written as in [src/main.py] (with a
    slash for categories only). *)
Definition collection_path (res : resource) : string :=
  match res with
  | RCategory => "/categories" | RPlace => "/places" | RImage => "/images" | RVideo => "/videos"
  end.

Definition item_prefix (res : resource) : string :=
  match res with
  | RCategory => "/categories/" | RPlace => "/places" | RImage => "/images" | RVideo => "/videos"
  end.

(** The decorator of each operation: [@app.post], [@app.get], [@app.put],
    [@app.delete]. *)
Definition op_method (k : op_kind) : http_method :=
  match k with
  | KCreate => POST | KList | KGet => GET | KUpdate => PUT | KDelete => DELETE
  end.

(** A segment [[^/]+] can match entirely. *)
Fixpoint no_slash (v : string) : bool :=
  match v with EmptyString => true | String c r => negb (Ascii.eqb c "/") && no_slash r end.

Example route_request_samples :
  route_request routes GET "/categories/5" = DRoute (EApi RCategory KGet) [("category_id", "5")] /\
  route_request routes GET "/places5" = DRoute (EApi RPlace KGet) [("place_id", "5")] /\
  route_request routes GET "/places/5" = DNotFound /\
  route_request routes GET "/places/" = DRedirect "/places" /\
  route_request routes PUT "/categories" = DMethodNotAllowed [POST] /\
  route_request routes GET (String.append "/categories" (String "010" EmptyString)) = DRoute (EApi RCategory KList) [].
Proof. repeat split; vm_compute; reflexivity. Qed.

(** ** Matching lemmas *)

Lemma nonslash_splits_full v :
  no_slash v = true -> v <> EmptyString -> exists rest, nonslash_splits v = (v, EmptyString) :: rest.
Proof.
  induction v as [|c r IH]; [done|]. simpl. intros [Hc Hr]%andb_prop _.
  apply negb_true_iff in Hc. rewrite Hc.
  destruct r as [|c' r']; [by eexists|].
  destruct IH as [rest ->]; [done|done|]. simpl. by eexists.
Qed.

Lemma match_pieces_lit l ps v : match_pieces (PLit l :: ps) (String.append l v) = match_pieces ps v.
Proof. simpl. by rewrite strip_prefix_app. Qed.

Lemma match_pieces_param x v :
  no_slash v = true -> v <> EmptyString -> match_pieces [PParam x] v = Some [(x, v)].
Proof. intros Hs Hne. destruct (nonslash_splits_full v Hs Hne) as [rest Hsp]. simpl. by rewrite Hsp. Qed.

Lemma route_matches_lit t ms e m l v :
  compile_path t = [PLit l] -> at_end v = false -> route_matches (mkRoute t ms e) m (String.append l v) = MNone.
Proof. intros Ht He. unfold route_matches. simpl r_path. by rewrite Ht, match_pieces_lit; simpl; rewrite He. Qed.

Lemma route_matches_param t ms e m l x v :
  compile_path t = [PLit l; PParam x] -> no_slash v = true -> v <> EmptyString ->
  route_matches (mkRoute t ms e) m (String.append l v) =
    if bool_decide (m ∈ ms) then MFull [(x, v)] else MPartial.
Proof. intros Ht Hs Hne. unfold route_matches. simpl r_path. by rewrite Ht, match_pieces_lit, match_pieces_param. Qed.

Lemma router_loop_skip r rs m p part all :
  route_matches r m p = MNone -> router_loop (r :: rs) m p part all = router_loop rs m p part all.
Proof. simpl. by intros ->. Qed.

Lemma router_loop_partial r rs m p part all :
  route_matches r m p = MPartial ->
  router_loop (r :: rs) m p part all = router_loop rs m p (if part is Some _ then part else Some r) all.
Proof. simpl. by intros ->. Qed.

Lemma router_loop_full r rs m p part all ps :
  route_matches r m p = MFull ps -> router_loop (r :: rs) m p part all = DRoute (r_endpoint r) ps.
Proof. simpl. by intros ->. Qed.

(** One route of the loop on a path [prefix ++ v]: skipped when its
    template cannot match, remembered when only the method differs, taken
    when both match. *)
(** A redirect comes from the fallback of the loop. *)
Lemma route_matches_full r m p ps : route_matches r m p = MFull ps -> m ∈ r_methods r.
Proof. unfold route_matches. destruct (match_pieces _ _); [case_bool_decide|]; congruence. Qed.

(** A route the router picks matched the method. *)
Lemma router_loop_route rs m p part all e ps :
  router_loop rs m p part all = DRoute e ps -> exists r, r ∈ rs /\ r_endpoint r = e /\ m ∈ r_methods r.
Proof.
  revert part. induction rs as [|r rs IH]; intros part; cbn [router_loop].
  - destruct part; [done|]. unfold redirect_or_404. repeat case_match; done.
  - destruct (route_matches r m p) as [| |ps'] eqn:E.
    + intros (r' & ? & ? & ?)%IH. exists r'. split_and!; [by right|done|done].
    + intros (r' & ? & ? & ?)%IH. exists r'. split_and!; [by right|done|done].
    + intros [= <- _]. exists r. split_and!; [by left|done|by eapply route_matches_full].
Qed.

Lemma route_request_route rs m p e ps :
  route_request rs m p = DRoute e ps -> exists r, r ∈ rs /\ r_endpoint r = e /\ m ∈ r_methods r.
Proof. unfold route_request. apply router_loop_route. Qed.

Ltac route_step :=
  first [ rewrite router_loop_skip by (reflexivity || (apply route_matches_lit; [reflexivity | done]))
        | rewrite router_loop_partial by (erewrite route_matches_param by (reflexivity || done); reflexivity)
        | apply router_loop_full; erewrite route_matches_param by (reflexivity || done); reflexivity ].

Lemma rstrip_slash_app p w :
  rstrip_slash w <> EmptyString -> rstrip_slash (String.append p w) = String.append p (rstrip_slash w).
Proof.
  intros Hw. induction p as [|c p IH]; [done|]. rewrite !string_app_cons. simpl. rewrite IH.
  destruct (String.append p (rstrip_slash w)) eqn:E; [|done].
  destruct p; simpl in E; [contradiction | discriminate].
Qed.

Lemma rstrip_slash_app_empty p w :
  rstrip_slash w = EmptyString -> rstrip_slash (String.append p w) = rstrip_slash p.
Proof. intros Hw. induction p as [|c p IH]; [done|]. rewrite string_app_cons. simpl. by rewrite IH. Qed.

Lemma ends_with_slash_app p c w : ends_with_slash (String.append p (String c w)) = ends_with_slash (String c w).
Proof.
  induction p as [|c0 p IH]; [done|]. rewrite string_app_cons, <- IH.
  destruct p; [done|]. by rewrite string_app_cons.
Qed.

Lemma ends_all_slash w : w <> EmptyString -> rstrip_slash w = EmptyString -> ends_with_slash w = true.
Proof.
  induction w as [|c r IH]; [done|]. intros _. simpl.
  destruct (rstrip_slash r) eqn:E; [|done]. destruct (Ascii.eqb c "/") eqn:Ec; [|done]. intros _.
  destruct r; [by apply Ascii.eqb_eq in Ec as -> | by apply IH].
Qed.

(** Below [/places/], [/images/] and [/videos/] no template matches, for
    any method: the routes of these resources have no slash after the
    collection name. *)
Lemma slashed_item_unmatched res m w :
  res <> RCategory ->
  let p := String.append (item_prefix res) (String "/" w) in
  router_loop routes m p None routes = redirect_or_404 routes m p /\
  existsb (fun r => match route_matches r m p with MNone => false | _ => true end) routes = false.
Proof. intros Hres. by destruct res, m; split. Qed.

(** The collection routes: [POST] and [GET] on [/categories] and the
    other three collection paths reach the create and list handlers. *)
Lemma route_collection res k :
  k ∈ [KCreate; KList] -> route_request routes (op_method k) (collection_path res) = DRoute (EApi res k) [].
Proof.
  intros Hk. apply list_elem_of_In in Hk as [<-|[<-|[]]]; by destruct res.
Qed.

(** ** The route table *)

(** The id routes as the decorators write them: for an id text [v]
    that is one path segment ([[^/]+], and not just a newline), [GET],
    [PUT] and [DELETE] on [item_prefix res ++ v] (["/categories/" ++ v],
    but ["/places" ++ v], ["/images" ++ v], ["/videos" ++ v]) reach the
    resource's get, update and delete handler with [v] as the value of its
    id parameter. *)
Theorem route_item res k v :
  k ∈ [KGet; KUpdate; KDelete] -> no_slash v = true -> v <> EmptyString -> at_end v = false ->
  route_request routes (op_method k) (String.append (item_prefix res) v) =
    DRoute (EApi res k) [(id_param res, v)].
Proof.
  intros Hk Hs Hne He. apply list_elem_of_In in Hk as [<-|[<-|[<-|[]]]];
    destruct res; cbv beta iota delta [item_prefix op_method id_param];
    unfold route_request, routes; repeat route_step.
Qed.

(** The paths of the spec, [/places/{id}], [/images/{id}] and
    [/videos/{id}], reach no handler: for every method and every suffix
    [w], the answer is a 307 redirect to the collection when [w] is only
    slashes, and 404 otherwise. *)
Theorem slashed_item_path res m w :
  res <> RCategory ->
  route_request routes m (String.append (item_prefix res) (String "/" w)) =
    match rstrip_slash w with EmptyString => DRedirect (item_prefix res) | _ => DNotFound end.
Proof.
  intros Hres. destruct (slashed_item_unmatched res m w Hres) as [Hloop _].
  unfold route_request. rewrite Hloop. unfold redirect_or_404.
  replace (String.eqb _ "/") with false by (by destruct res).
  destruct (rstrip_slash w) as [|a s] eqn:Ew.
  - rewrite ends_with_slash_app.
    replace (ends_with_slash (String "/" w)) with true
      by (destruct w; [done|]; symmetry; refine (ends_all_slash _ _ Ew); done).
    rewrite rstrip_slash_app_empty by (simpl; by rewrite Ew).
    by destruct res, m.
  - destruct (ends_with_slash _).
    + rewrite rstrip_slash_app by (simpl; by rewrite Ew). simpl rstrip_slash. rewrite Ew.
      by rewrite (proj2 (slashed_item_unmatched res m (String a s) Hres)).
    + rewrite string_app_assoc, string_app_cons.
      by rewrite (proj2 (slashed_item_unmatched res m _ Hres)).
Qed.

(** (C28) Methods a path does not serve: on an id path, any method but
    [GET], [PUT] and [DELETE] answers 405 with [Allow: GET]; on a
    collection path, any method but [POST] and [GET] answers 405 with
    [Allow: POST] only, the methods of the first route whose template
    matched, although [GET] is served there too. *)
Theorem method_not_allowed res m v :
  no_slash v = true -> v <> EmptyString -> at_end v = false ->
  (m ∉ [GET; PUT; DELETE] ->
     route_request routes m (String.append (item_prefix res) v) = DMethodNotAllowed [GET]) /\
  (m ∉ [POST; GET] -> route_request routes m (collection_path res) = DMethodNotAllowed [POST]).
Proof.
  intros Hs Hne He. split; intros Hm;
    destruct m; try (exfalso; apply Hm; by repeat constructor);
    destruct res; try reflexivity; cbv beta iota delta [item_prefix];
    unfold route_request, routes; repeat route_step; reflexivity.
Qed.

(** ** Examples *)

Lemma method_not_allowed_witness :
  (PATCH ∉ [GET; PUT; DELETE] ->
     route_request routes PATCH (String.append (item_prefix RImage) "7") = DMethodNotAllowed [GET]) /\
  (PATCH ∉ [POST; GET] -> route_request routes PATCH (collection_path RImage) = DMethodNotAllowed [POST]).
Proof. apply method_not_allowed; [reflexivity | done | reflexivity]. Defined.
