(* ===== verification/App.v ===== *)
(** * App: one HTTP request through the whole application

    What happens to a request, in the order FastAPI and Starlette do it:

    - the router picks a route ([Routing.v]); no route gives 404
      ["Not Found"], a path matched with another method 405, a path that
      matches after adding or removing a trailing slash a 307 redirect;
    - [/openapi.json] answers 200 with the document of [OpenAPI.v]; the
      pages [/docs] and [/redoc] answer 200 with a page left abstract;
    - an endpoint with a body parameter reads the body first: under no
      [Content-Type] or a JSON one ([application/json], [.../...+json])
      it is decoded with [json.loads], a [JSONDecodeError] is refused at
      once with a 422 located at [("body", pos)] and bytes that are not
      text with a 400 ["There was an error parsing the body"]; under any
      other content type the raw bytes are the body, which the
      [orm_mode] schema reads with [from_orm] and finds no field in;
    - [solve_dependencies] opens the [get_db] session, converts the path
      parameter with pydantic's [int_validator] ([py_int_of_str]) and
      validates the body against the schema; all errors (path first,
      then body) are reported together in one 422, and the handler does
      not run;
    - the handler runs under [get_db] on its table ([Crud.run_op]); a
      table that [create_all] has not created makes every statement fail
      ([UndefinedTable]);
    - an [HTTPException] becomes a JSON [{"detail": ...}] response with
      its status; any other exception, and a returned row that fails the
      [response_model], a 500 ["Internal Server Error"]; a result that
      serialises a 200 with the schema's fields.

    The 422 error list follows pydantic v1's messages and types.  The
    redirect's [Location] is kept as the path (Starlette puts the full
    URL there). *)

From S2P Require Import Prelude PyBuiltins Storage Session Models Schemas Handlers Crud Routing OpenAPI.

(** What [json.loads] makes of the bytes of a body: a JSON value, a
    [JSONDecodeError] (its position and message), or a
    [UnicodeDecodeError] for bytes that are not UTF-8, UTF-16 or UTF-32
    text. *)
Inductive json_read := JsonOk (j : json) | JsonBad (pos : Z) (msg : string) | NotText.

(** The body of a request: no bytes, or bytes sent with the request's
    [Content-Type] header (absent, or its value) and what [json.loads]
    makes of them. *)
Inductive raw_body := NoBody | RawBody (ctype : option string) (read : json_read).

(** A JSON body sent as [application/json]. *)
Definition Body (j : json) : raw_body := RawBody (Some "application/json") (JsonOk j).

(** A body [json.loads] refuses, sent as [application/json]. *)
Definition BadJson (pos : Z) (msg : string) : raw_body := RawBody (Some "application/json") (JsonBad pos msg).

Record request := mkRequest { req_method : http_method; req_path : string; req_body : raw_body }.

Inductive content := CJson (j : json) | CText (s : string) | CPage (e : endpoint).

Record response := mkResponse {
  status : Z;
  content_of : content;
  allow : list http_method;       (** the [Allow] header of a 405 *)
  location : option string;       (** the [Location] header of a 307 *)
}.

(** ** Validation errors (pydantic v1 [ErrorWrapper]s) *)

Record verr := mkErr { err_loc : list json; err_msg : string; err_type : string }.

Definition err_json (e : verr) : json :=
  JObj [("loc", JArr (err_loc e)); ("msg", JStr (err_msg e)); ("type", JStr (err_type e))].

Definition missing (loc : list json) : verr := mkErr loc "field required" "value_error.missing".

(** One [str] field of a JSON object body. *)
Definition field_errors (k : string) (m : list (string * json)) : list verr :=
  let loc := [JStr "body"; JStr k] in
  match obj_get k m with
  | None => [missing loc]
  | Some JNull => [mkErr loc "none is not an allowed value" "type_error.none.not_allowed"]
  | Some v => match str_validator v with
              | Some _ => []
              | None => [mkErr loc "str type expected" "type_error.str"]
              end
  end.

(** [from_orm] on a value that is not a dict ([orm_mode = True]): it
    finds neither field. *)
Definition orm_errors (res : resource) : list verr :=
  let '(f1, f2) := schema_fields res in [missing [JStr "body"; JStr f1]; missing [JStr "body"; JStr f2]].

(** [request_body_to_args] for the one body parameter: no body (or
    [null]) is a missing body; an object is validated field by field; any
    other JSON value goes through [from_orm]. *)
Definition body_errors (res : resource) (b : option json) : list verr :=
  let '(f1, f2) := schema_fields res in
  match b with
  | None | Some JNull => [missing [JStr "body"]]
  | Some (JObj m) => field_errors f1 m ++ field_errors f2 m
  | Some _ => orm_errors res
  end.

(** What the endpoint receives as its body: the JSON value [json.loads]
    gave (or none), or the raw bytes, when the content type is not JSON. *)
Inductive body_in := BJson (b : option json) | BBytes.

(** The body parameter: the validated schema, or the errors.  Raw bytes
    go through [from_orm] too. *)
Definition body_value (res : resource) (b : body_in) : list verr + schema res :=
  match b with
  | BJson b =>
      match b ≫= validate_of res with
      | Some c => inr c
      | None => inl (body_errors res b)
      end
  | BBytes => inl (orm_errors res)
  end.

Fixpoint param_lookup (x : string) (params : list (string * string)) : option string :=
  match params with
  | [] => None
  | (y, v) :: ps => if String.eqb x y then Some v else param_lookup x ps
  end.

(** The [int] id parameter: a path parameter when the route has one of
    that name (otherwise FastAPI would look for it in the query). *)
Definition path_param (res : resource) (params : list (string * string)) : list verr + Z :=
  let x := id_param res in
  match param_lookup x params with
  | None => inl [missing [JStr "query"; JStr x]]
  | Some v =>
      match py_int_of_str v with
      | Some z => inr z
      | None => inl [mkErr [JStr "path"; JStr x] "value is not a valid integer" "type_error.integer"]
      end
  end.

Definition errs_of {A} (x : list verr + A) : list verr :=
  match x with inl e => e | inr _ => [] end.

(** Path and body are validated independently and their errors joined. *)
Definition both {A B} (x : list verr + A) (y : list verr + B) : list verr + A * B :=
  match x, y with
  | inr a, inr b => inr (a, b)
  | _, _ => inl (errs_of x ++ errs_of y)
  end.

(** ** The content type

    [s.partition(c)[0]] and [s.partition(c)[2]]. *)
Fixpoint before_char (c : ascii) (s : string) : string :=
  match s with
  | EmptyString => EmptyString
  | String d r => if Ascii.eqb d c then EmptyString else String d (before_char c r)
  end.

Fixpoint after_char (c : ascii) (s : string) : string :=
  match s with
  | EmptyString => EmptyString
  | String d r => if Ascii.eqb d c then r else after_char c r
  end.

Fixpoint count_char (c : ascii) (s : string) : nat :=
  match s with
  | EmptyString => 0
  | String d r => (if Ascii.eqb d c then 1 else 0) + count_char c r
  end.

Fixpoint lower_str (s : string) : string :=
  match s with EmptyString => EmptyString | String c r => String (to_lower c) (lower_str r) end.

(** [s.endswith(suffix)]. *)
Definition ends_with (suffix s : string) : bool :=
  Nat.leb (String.length suffix) (String.length s) &&
  String.eqb (String.substring (String.length s - String.length suffix) (String.length suffix) s) suffix.

(** [email.message.Message.get_content_type] of a header value: the part
    before [;], stripped and lower-cased; a type without exactly one [/]
    is read as [text/plain]. *)
Definition content_type_of (v : string) : string :=
  let ct := lower_str (rstrip (lstrip (before_char ";" v))) in
  if Nat.eqb (count_char "/" ct) 1 then ct else "text/plain".

(** FastAPI decodes the body as JSON when the request has no (or an
    empty) [Content-Type], or one whose main type is [application] and
    whose subtype is [json] or ends with [+json]. *)
Definition json_content_type (ctype : option string) : bool :=
  match ctype with
  | None | Some EmptyString => true
  | Some v =>
      let t := content_type_of v in
      String.eqb (before_char "/" t) "application" &&
      (String.eqb (after_char "/" t) "json" || ends_with "+json" (after_char "/" t))
  end.

(** ** Reading the body and converting the arguments *)

(** Why the endpoint is not called: validation errors (422), or a body
    that could not be read ([HTTPException(400)]). *)
Inductive call_error := Invalid (errs : list verr) | Unreadable.

(** [get_request_handler], for the endpoints with a body parameter, before
    anything else: an empty body is no body; under a JSON content type
    the bytes go through [await request.json()], whose [JSONDecodeError]
    is a 422 located at [("body", pos)] and whose other errors are the
    400 "There was an error parsing the body"; under any other content
    type the raw bytes are the body. *)
Definition decode_body (b : raw_body) : call_error + body_in :=
  match b with
  | NoBody => inr (BJson None)
  | RawBody ct r =>
      if json_content_type ct then
        match r with
        | JsonOk j => inr (BJson (Some j))
        | JsonBad pos msg => inl (Invalid [mkErr [JStr "body"; JInt pos] msg "value_error.jsondecode"])
        | NotText => inl Unreadable
        end
      else inr BBytes
  end.

(** The arguments of the endpoint's call, or why it is not called. *)
Definition parse_call (res : resource) (k : op_kind) (params : list (string * string)) (b : raw_body)
    : call_error + crud_op res :=
  match k with
  | KCreate =>
      match decode_body b with
      | inl e => inl e
      | inr j => match body_value res j with inl e => inl (Invalid e) | inr c => inr (OpCreate c) end
      end
  | KList => inr OpList
  | KGet => match path_param res params with inl e => inl (Invalid e) | inr z => inr (OpGet z) end
  | KUpdate =>
      match decode_body b with
      | inl e => inl e
      | inr j =>
          match both (path_param res params) (body_value res j) with
          | inl e => inl (Invalid e)
          | inr (z, c) => inr (OpUpdate z c)
          end
      end
  | KDelete => match path_param res params with inl e => inl (Invalid e) | inr z => inr (OpDelete z) end
  end.

(** ** Responses *)

Definition json_response (code : Z) (j : json) : response := mkResponse code (CJson j) [] None.

Definition detail_response (code : Z) (d : string) : response :=
  json_response code (JObj [("detail", JStr d)]).

Definition server_error : response := mkResponse 500 (CText "Internal Server Error") [] None.

Definition validation_response (errs : list verr) : response :=
  json_response 422 (JObj [("detail", JArr (err_json <$> errs))]).

(** FastAPI's [http_exception_handler] for [HTTPException]; every other
    exception reaches [ServerErrorMiddleware]. *)
Definition exc_response (e : exc) : response :=
  match e with
  | HTTPException code d => detail_response code d
  | _ => server_error
  end.

(** [serialize_response] through [response_model]. *)
Definition out_response (res : resource) (x : exc + crud_out res) : response :=
  match x with
  | inl e => exc_response e
  | inr (OutRow r) =>
      match response_of res r with Some j => json_response 200 j | None => server_error end
  | inr (OutRows l) =>
      match response_list (response_of res) l with Some j => json_response 200 j | None => server_error end
  end.

(** ** The database the handlers share *)

Definition table_of (res : resource) (db : Db) : option (Table (model res)) :=
  match res as r return option (Table (model r)) with
  | RCategory => categories db | RPlace => places db
  | RImage => images db | RVideo => videos db
  end.

Definition set_table (res : resource) (db : Db) : Table (model res) -> Db :=
  match res as r return Table (model r) -> Db with
  | RCategory => fun t => mkDb (Some t) (places db) (images db) (videos db)
  | RPlace => fun t => mkDb (categories db) (Some t) (images db) (videos db)
  | RImage => fun t => mkDb (categories db) (places db) (Some t) (videos db)
  | RVideo => fun t => mkDb (categories db) (places db) (images db) (Some t)
  end.

(** The endpoint with [db: Session = Depends(get_db)] on the resource's
    table; with no table, its first statement fails. *)
Definition run_call (res : resource) (o : crud_op res) (db : Db) : Db * response :=
  match table_of res db with
  | None => (db, server_error)
  | Some t => let '(t', x) := run_op o t in (set_table res db t', out_response res x)
  end.

(** One request. *)
Definition handle (db : Db) (req : request) : Db * response :=
  match route_request routes (req_method req) (req_path req) with
  | DNotFound => (db, detail_response 404 "Not Found")
  | DMethodNotAllowed ms =>
      (db, mkResponse 405 (CJson (JObj [("detail", JStr "Method Not Allowed")])) ms None)
  | DRedirect p => (db, mkResponse 307 (CText "") [] (Some p))
  | DRoute (EApi res k) params =>
      match parse_call res k params (req_body req) with
      | inl (Invalid errs) => (db, validation_response errs)
      | inl Unreadable => (db, detail_response 400 "There was an error parsing the body")
      | inr o => run_call res o db
      end
  | DRoute EOpenapi _ => (db, json_response 200 openapi_document)
  | DRoute e _ => (db, mkResponse 200 (CPage e) [] None)
  end.

(** The server: [create_all] at import of [models.py], then the requests
    one after the other. *)
Fixpoint serve (db : Db) (reqs : list request) : Db * list response :=
  match reqs with
  | [] => (db, [])
  | q :: qs => let '(db1, r) := handle db q in let '(db2, rs) := serve db1 qs in (db2, r :: rs)
  end.

Definition start : Db := create_all db_init.

(** ** The state the server keeps: every table exists and is well formed *)

Definition db_ready (db : Db) : Prop :=
  forall res, exists t, table_of res db = Some t /\ table_wf t /\ rows_serialisable t.

Lemma table_of_set res db t : table_of res (set_table res db t) = Some t.
Proof. by destruct res. Qed.

Lemma table_of_set_ne res res' db t :
  res <> res' -> table_of res' (set_table res db t) = table_of res' db.
Proof. by destruct res, res'. Qed.

Lemma set_table_same res db t : table_of res db = Some t -> set_table res db t = db.
Proof. destruct db; by destruct res; simpl; intros ->. Qed.

Lemma run_call_ready res o db : db_ready db -> db_ready (fst (run_call res o db)).
Proof.
  intros Hok. unfold run_call. destruct (Hok res) as (t & Ht & Hwf & Hser). rewrite Ht.
  pose proof (run_op_wf o t Hwf) as Hwf1. pose proof (run_op_serialisable_step o t Hwf Hser) as [Hser1 _].
  destruct (run_op o t) as [t1 x]. simpl in *. intros res'.
  destruct (decide (res = res')) as [<-|Hne].
  - rewrite table_of_set. by eexists.
  - rewrite table_of_set_ne by done. apply Hok.
Qed.

Lemma handle_ready db req : db_ready db -> db_ready (fst (handle db req)).
Proof.
  intros Hok. unfold handle.
  destruct (route_request _ _ _) as [[| | | |res k] params| | |]; simpl; try done.
  destruct (parse_call _ _ _ _) as [[]|o]; [done | done | by apply run_call_ready].
Qed.

(** The error branches of one request on a well-formed table: a 404 or a
    database error, and the table is unchanged. *)
Lemma table_step_error {res} (o : crud_op res) t t' e :
  table_step o t = (t', inl e) ->
  t' = t /\ (e = HTTPException 404 (not_found_detail res) \/
             e = DBAPIError UnsendableText \/ e = DBAPIError SequenceExhausted).
Proof.
  destruct o as [c| |k|k c|k]; simpl.
  - destruct (texts_ok _); [case_decide|]; intros [= <- <-]; auto.
  - done.
  - destruct (rows t !! k); intros [= <- <-]; auto.
  - destruct (rows t !! k); [destruct (texts_ok _)|]; intros [= <- <-]; auto.
  - destruct (rows t !! k); intros [= <- <-]; auto.
Qed.

Lemma serve_ready_from db reqs : db_ready db -> db_ready (fst (serve db reqs)).
Proof.
  revert db. induction reqs as [|q qs IH]; intros db Hok; [done|]. simpl.
  pose proof (handle_ready db q Hok) as Hok1.
  destruct (handle db q) as [db1 r]. destruct (serve db1 qs) as [db2 rs] eqn:E.
  simpl in *. specialize (IH db1 Hok1). by rewrite E in IH.
Qed.

Lemma start_ready : db_ready start.
Proof. intros []; eexists; (split; [reflexivity|]); (split; [apply empty_table_wf | apply map_Forall_empty]). Qed.

(** ** The whole server *)

(** (C13) Invariant of the running server: after [create_all] at start-up
    and any sequence of requests (any methods, paths and bodies,
    including failing ones), the four tables exist, each satisfies the
    table invariant, and none of their rows has a NULL that the
    [response_model] would refuse. *)
Theorem serve_ready reqs : db_ready (fst (serve start reqs)).
Proof. apply serve_ready_from, start_ready. Qed.

(** (C17) The only server errors: on a database in that state, a request
    answered 500 ran a handler whose statement failed on a text that
    psycopg2 cannot send (a NUL character or a lone surrogate, which a
    JSON [\ud800] escape gives and pydantic accepts) or on an exhausted
    sequence, and the database is left as it was.  No
    response fails in the [response_model], and no handler raises an ORM
    error. *)
Theorem handle_server_error db req :
  db_ready db -> status (snd (handle db req)) = 500%Z ->
  fst (handle db req) = db /\
  exists res k params o t e,
    route_request routes (req_method req) (req_path req) = DRoute (EApi res k) params /\
    parse_call res k params (req_body req) = inr o /\
    table_of res db = Some t /\ run_op o t = (t, inl (DBAPIError e)) /\
    (e = UnsendableText \/ e = SequenceExhausted).
Proof.
  intros Hok. unfold handle.
  destruct (route_request _ _ _) as [[| | | |res k] params| | |]; simpl; try discriminate.
  destruct (parse_call _ _ _ _) as [[errs|]|o] eqn:Hp; [discriminate|discriminate|].
  unfold run_call. destruct (Hok res) as (t & Ht & Hwf & Hser). rewrite Ht.
  pose proof (run_op_serialisable_step o t Hwf Hser) as [_ Hx].
  rewrite run_op_eq in Hx |- * by done.
  destruct (table_step o t) as [t' [e|out]] eqn:Hs; simpl in *.
  - pose proof (table_step_error o t t' e Hs) as [-> He]. rewrite set_table_same by done.
    intros Hst. split; [done|]. exists res, k, params, o, t, (match e with DBAPIError d => d | _ => UnsendableText end).
    assert (Hrun : run_op o t = (t, inl e)) by (by rewrite run_op_eq).
    destruct He as [-> | [-> | ->]]; simpl in Hst; [discriminate | ..];
      split_and!; try done; (by left) || (by right).
  - destruct out as [r|l]; simpl in *.
    + destruct Hx as [j ->]. discriminate.
    + unfold response_list. destruct (mapM_is_Some_2 (response_of res) l) as [js ->].
      * exact Hx.
      * discriminate.
Qed.

(** ** End to end: one request on a given database *)

Lemma param_lookup_one x v : param_lookup x [(x, v)] = Some v.
Proof. simpl. by rewrite String.eqb_refl. Qed.

(** (C18) [GET] on an id path: for any id text [v] that routes (one path
    segment) and that [int()] reads as [k] (["7"], ["007"], [" +7"]),
    the database is left as it was and the answer is the stored row's
    fields, or the resource's 404 when no row has id [k]. *)
Theorem get_item_response res v k b db t :
  table_of res db = Some t -> table_wf t ->
  no_slash v = true -> v <> EmptyString -> at_end v = false -> py_int_of_str v = Some k ->
  handle db (mkRequest GET (String.append (item_prefix res) v) b) =
    (db, match rows t !! k with
         | None => detail_response 404 (not_found_detail res)
         | Some r => out_response res (inr (OutRow r))
         end).
Proof.
  intros Ht Hwf Hs Hne He Hk. unfold handle. simpl req_method. simpl req_path.
  pose proof (route_item res KGet v ltac:(by repeat constructor) Hs Hne He) as Hr.
  cbn [op_method] in Hr. rewrite Hr.
  unfold parse_call, path_param. rewrite param_lookup_one, Hk.
  unfold run_call. rewrite Ht, run_op_eq by done. simpl.
  rewrite set_table_same by done. by destruct (rows t !! k).
Qed.

(** (C19) [PUT] on an id path whose text [int()] reads as [k], with a body
    that validates to [F], on an existing row whose new texts psycopg2
    accepts: that row alone is replaced by the id and the fields of [F]
    (the sequence does not move), and the 200 answer validates back to
    [F]. *)
Theorem update_item_response res v k j c db t r :
  table_of res db = Some t -> table_wf t ->
  no_slash v = true -> v <> EmptyString -> at_end v = false -> py_int_of_str v = Some k ->
  validate_of res j = Some c -> rows t !! k = Some r -> texts_ok (spec_row res c None) = true ->
  exists j', validate_of res j' = Some c /\
  handle db (mkRequest PUT (String.append (item_prefix res) v) (Body j)) =
    (set_table res db (mkTable (<[k := spec_row res c (Some k)]> (rows t)) (seq_next t)), json_response 200 j').
Proof.
  intros Ht Hwf Hs Hne He Hk Hj Hr Htxt. unfold handle. simpl req_method. simpl req_path.
  pose proof (route_item res KUpdate v ltac:(by repeat constructor) Hs Hne He) as Hroute.
  cbn [op_method] in Hroute. rewrite Hroute.
  unfold parse_call, path_param, body_value. rewrite param_lookup_one, Hk. simpl. rewrite Hj. simpl.
  unfold run_call. rewrite Ht, run_op_eq by done. simpl. rewrite Hr, Htxt. simpl.
  destruct (response_spec_row res c (Some k)) as [j' Hj']. exists j'. rewrite Hj'. split; [|done].
  destruct res, c; unfold response_of, spec_row, response_CategoryCreate, response_PlaceCreate,
    response_ImageCreate, response_VideoCreate in Hj'; simpl in Hj'; by simplify_eq.
Qed.

(** (C20) [DELETE] on an id path whose text [int()] reads as [k]: the row
    under [k] is removed from that resource's table and answered as it
    was; with no such row, nothing changes and the answer is the
    resource's 404. *)
Theorem delete_item_response res v k b db t :
  table_of res db = Some t -> table_wf t ->
  no_slash v = true -> v <> EmptyString -> at_end v = false -> py_int_of_str v = Some k ->
  handle db (mkRequest DELETE (String.append (item_prefix res) v) b) =
    match rows t !! k with
    | None => (db, detail_response 404 (not_found_detail res))
    | Some r => (set_table res db (delete_row k t), out_response res (inr (OutRow r)))
    end.
Proof.
  intros Ht Hwf Hs Hne He Hk. unfold handle. simpl req_method. simpl req_path.
  pose proof (route_item res KDelete v ltac:(by repeat constructor) Hs Hne He) as Hroute.
  cbn [op_method] in Hroute. rewrite Hroute.
  unfold parse_call, path_param. rewrite param_lookup_one, Hk.
  unfold run_call. rewrite Ht, run_op_eq by done. simpl.
  destruct (rows t !! k); simpl; [done|]. by rewrite set_table_same.
Qed.

(** (C21) The item URLs of the spec for places, images and videos reach no
    handler: [/places/7] (and [/images/...], [/videos/...]) with any
    method and any body changes nothing and answers 404 ["Not Found"];
    only a suffix of slashes gets a 307 redirect to the collection. *)
Theorem slashed_item_response res m w b db :
  res <> RCategory ->
  handle db (mkRequest m (String.append (item_prefix res) (String "/" w)) b) =
    (db, match rstrip_slash w with
         | EmptyString => mkResponse 307 (CText "") [] (Some (item_prefix res))
         | _ => detail_response 404 "Not Found"
         end).
Proof.
  intros Hres. unfold handle. simpl req_method. simpl req_path.
  rewrite slashed_item_path by done. by destruct (rstrip_slash w).
Qed.


(** (C22) [POST] on a collection path with a body that validates to [F]:
    the row with the next id and exactly the fields of [F] is added to
    that resource's table, the other tables are untouched, and the 200
    answer is a JSON object that validates back to [F]. *)
Theorem create_response res j c db t :
  table_of res db = Some t -> table_wf t -> validate_of res j = Some c ->
  texts_ok (spec_row res c None) = true -> (seq_next t <= SERIAL_MAX)%Z ->
  exists j', validate_of res j' = Some c /\
  handle db (mkRequest POST (collection_path res) (Body j)) =
    (set_table res db (mkTable (<[seq_next t := spec_row res c (Some (seq_next t))]> (rows t)) (seq_next t + 1)),
     json_response 200 j').
Proof.
  intros Ht Hwf Hj Htxt Hseq. unfold handle. simpl req_method. simpl req_path.
  pose proof (route_collection res KCreate ltac:(by repeat constructor)) as Hr.
  cbn [op_method] in Hr. rewrite Hr.
  unfold parse_call, body_value. simpl. rewrite Hj.
  unfold run_call. rewrite Ht, run_op_eq by done. simpl. rewrite Htxt.
  rewrite decide_True by done. simpl.
  destruct (response_spec_row res c (Some (seq_next t))) as [j' Hj'].
  exists j'. rewrite Hj'. split; [|done].
  destruct res, c; unfold response_of, spec_row, response_CategoryCreate, response_PlaceCreate,
    response_ImageCreate, response_VideoCreate in Hj'; simpl in Hj'; by simplify_eq.
Qed.





(** ** Examples on concrete requests *)

(** The server after start-up, with the "Parks" row in [categories]. *)
Definition parks_db : Db := set_table RCategory start parks_table.

Definition nul_request : request :=
  mkRequest POST "/categories" (Body (JObj [("name", JStr (String "000" EmptyString)); ("description", JStr "x")])).

Lemma handle_server_error_witness :
  status (snd (handle start nul_request)) = 500%Z /\
  (fst (handle start nul_request) = start /\
   exists res k params o t e,
     route_request routes (req_method nul_request) (req_path nul_request) = DRoute (EApi res k) params /\
     parse_call res k params (req_body nul_request) = inr o /\
     table_of res start = Some t /\ run_op o t = (t, inl (DBAPIError e)) /\
     (e = UnsendableText \/ e = SequenceExhausted)).
Proof.
  assert (H : status (snd (handle start nul_request)) = 500%Z) by reflexivity.
  split; [exact H | exact (handle_server_error start nul_request start_ready H)].
Defined.

Lemma get_item_response_witness :
  handle parks_db (mkRequest GET (String.append (item_prefix RCategory) "1") NoBody) =
    (parks_db, match rows parks_table !! 1%Z with
               | None => detail_response 404 (not_found_detail RCategory)
               | Some r => out_response RCategory (inr (OutRow r))
               end).
Proof. apply get_item_response; [reflexivity | wf_by_computation | reflexivity | done | reflexivity | reflexivity]. Defined.

Lemma slashed_item_response_witness :
  handle parks_db (mkRequest GET (String.append (item_prefix RPlace) (String "/" "1")) NoBody) =
    (parks_db, match rstrip_slash "1" with
               | EmptyString => mkResponse 307 (CText "") [] (Some (item_prefix RPlace))
               | _ => detail_response 404 "Not Found"
               end).
Proof. apply slashed_item_response. done. Defined.


Lemma create_response_witness :
  exists j', validate_of RCategory j' = Some lakes /\
  handle parks_db (mkRequest POST (collection_path RCategory)
                     (Body (JObj [("name", JStr "Lakes"); ("description", JStr "Water")]))) =
    (set_table RCategory parks_db
       (mkTable (<[seq_next parks_table := spec_row RCategory lakes (Some (seq_next parks_table))]>
                   (rows parks_table)) (seq_next parks_table + 1)),
     json_response 200 j').
Proof.
  apply create_response; [reflexivity | wf_by_computation | reflexivity | reflexivity | vm_compute; congruence].
Defined.


Lemma update_item_response_witness :
  exists j', validate_of RCategory j' = Some lakes /\
  handle parks_db (mkRequest PUT (String.append (item_prefix RCategory) "1")
                     (Body (JObj [("name", JStr "Lakes"); ("description", JStr "Water")]))) =
    (set_table RCategory parks_db
       (mkTable (<[1%Z := spec_row RCategory lakes (Some 1%Z)]> (rows parks_table)) (seq_next parks_table)),
     json_response 200 j').
Proof.
  apply (update_item_response RCategory "1" 1%Z _ lakes parks_db parks_table
           (Category.mk (Some 1%Z) "Parks" (Some "Green spaces")));
    [reflexivity | wf_by_computation | reflexivity | done | reflexivity | reflexivity | reflexivity
    | reflexivity | reflexivity].
Defined.

Lemma delete_item_response_witness :
  handle parks_db (mkRequest DELETE (String.append (item_prefix RCategory) "1") NoBody) =
    match rows parks_table !! 1%Z with
    | None => (parks_db, detail_response 404 (not_found_detail RCategory))
    | Some r => (set_table RCategory parks_db (delete_row 1%Z parks_table), out_response RCategory (inr (OutRow r)))
    end.
Proof. apply delete_item_response; [reflexivity | wf_by_computation | reflexivity | done | reflexivity | reflexivity]. Defined.


(** A name holding a lone surrogate (the WTF-8 bytes ED A0 80 of a JSON
    [\ud800] escape) passes pydantic and is refused by psycopg2: 500, and
    the database keeps its state. *)
Example surrogate_create_500 :
  let req := mkRequest POST "/categories"
               (Body (JObj [("name", JStr (String "237" (String "160" (String "128" EmptyString))));
                            ("description", JStr "x")])) in
  handle start req = (start, server_error).
Proof. vm_compute. reflexivity. Qed.
