(* ===== verification/Traces.v ===== *)
(** * Traces: what a client can always achieve

    Properties of whole request sequences [serve] runs, stated from the
    states the server reaches from [start].  A client that lists a
    resource and then sends [DELETE] for each id it saw (the text
    [str(id)] in the path, as [src/main.py]'s item routes expect) empties
    that table, every one of those requests answered 200: from any
    reachable state, the empty table is reachable again.  The last
    section shows that the id text and the router agree: an id the
    sequence hands out, written into an item URL, reaches its operation
    and [int()] reads it back. *)

From S2P Require Import Prelude PyBuiltins Storage Session Models Schemas Handlers Crud Routing App.
From Stdlib Require Import DecimalString DecimalPos.

(** [DELETE] on the item path of [res] with the id written in decimal. *)
Definition delete_request (res : resource) (k : Z) : request :=
  mkRequest DELETE (String.append (item_prefix res) (py_str_of_int k)) NoBody.

(** The deletes of every id of a table, in the order [list] answers them. *)
Definition delete_requests (res : resource) (t : Table (model res)) : list request :=
  delete_request res <$> (fst <$> map_to_list (rows t)).

(** ** The id text is one path segment *)

Lemma no_slash_uint d : no_slash (NilEmpty.string_of_uint d) = true.
Proof. induction d; simpl; auto. Qed.

Lemma id_text_segment k :
  (1 <= k)%Z ->
  no_slash (py_str_of_int k) = true /\ py_str_of_int k <> EmptyString /\ at_end (py_str_of_int k) = false.
Proof.
  intros Hk. destruct k as [|p|p]; [lia| |lia].
  unfold py_str_of_int. simpl Z.to_int. unfold NilZero.string_of_int.
  pose proof (DecimalPos.Unsigned.to_uint_nonnil p) as Hnn.
  rewrite nilzero_uint by exact Hnn. split; [apply no_slash_uint|].
  destruct (uint_lead _ Hnn) as (c & r & -> & _ & _ & _ & Hc). split; [done|].
  simpl. destruct (Ascii.eqb c "010") eqn:E; [|done].
  apply Ascii.eqb_eq in E. by subst.
Qed.

(** (C29) Round trip of an id through the item routes: for every
    resource, every operation that takes the id (get, update, delete) and
    every id the sequence can hand out, the path that writes the id in
    decimal after the decorator's prefix ([/categories/], and [/places],
    [/images], [/videos] without a slash) is routed to that operation's
    handler, and the [int] parameter named as in the function's
    signature ([category_id: int], ...) converts back to the id. *)
Theorem id_path_roundtrip res kind k :
  kind ∈ [KGet; KUpdate; KDelete] -> (1 <= k <= SERIAL_MAX)%Z ->
  exists ps,
    route_request routes (op_method kind) (String.append (item_prefix res) (py_str_of_int k)) =
      DRoute (EApi res kind) ps /\
    path_param res ps = inr k.
Proof.
  intros Hkind Hk. unfold SERIAL_MAX in Hk.
  destruct (id_text_segment k ltac:(lia)) as (Hs & Hne & He).
  eexists. split; [exact (route_item res kind _ Hkind Hs Hne He)|].
  unfold path_param. by rewrite param_lookup_one, py_int_of_str_small by lia.
Qed.

Lemma id_path_roundtrip_witness :
  KGet ∈ [KGet; KUpdate; KDelete] /\ (1 <= 5 <= SERIAL_MAX)%Z /\
  exists ps,
    route_request routes (op_method KGet) (String.append (item_prefix RPlace) (py_str_of_int 5)) =
      DRoute (EApi RPlace KGet) ps /\
    path_param RPlace ps = inr 5%Z.
Proof.
  assert (Hk : KGet ∈ [KGet; KUpdate; KDelete]) by (apply list_elem_of_In; simpl; tauto).
  assert (Hb : (1 <= 5 <= SERIAL_MAX)%Z) by (unfold SERIAL_MAX; lia).
  split; [exact Hk|split; [exact Hb|exact (id_path_roundtrip RPlace KGet 5 Hk Hb)]].
Defined.

(** ** One delete on a reachable database *)

Lemma delete_request_step res db t k r :
  db_ready db -> table_of res db = Some t -> rows t !! k = Some r ->
  fst (handle db (delete_request res k)) = set_table res db (delete_row k t) /\
  status (snd (handle db (delete_request res k))) = 200%Z.
Proof.
  intros Hok Ht Hk. destruct (Hok res) as (t0 & Ht0 & [Hseq Hwf] & Hser).
  rewrite Ht in Ht0. injection Ht0 as <-.
  destruct (Hwf k r Hk) as [_ Hkr]. unfold SERIAL_MAX in Hseq.
  destruct (id_text_segment k ltac:(lia)) as (Hs & Hne & He).
  unfold handle, delete_request. cbn [req_method req_path req_body].
  pose proof (route_item res KDelete (py_str_of_int k) ltac:(by repeat constructor) Hs Hne He) as Hroute.
  cbn [op_method] in Hroute. rewrite Hroute.
  unfold parse_call, path_param. rewrite param_lookup_one, py_int_of_str_small by lia.
  unfold run_call. rewrite Ht, run_op_eq by (split; done). simpl. rewrite Hk. simpl.
  destruct (Hser k r Hk) as [j Hj]. by rewrite Hj.
Qed.

(** ** A sequence of deletes *)

Lemma serve_deletes res db t ks :
  db_ready db -> table_of res db = Some t -> NoDup ks -> Forall (fun k => is_Some (rows t !! k)) ks ->
  exists t', table_of res (fst (serve db (delete_request res <$> ks))) = Some t' /\
    (forall j, rows t' !! j = if decide (j ∈ ks) then None else rows t !! j) /\
    Forall (fun r => status r = 200%Z) (snd (serve db (delete_request res <$> ks))).
Proof.
  revert db t. induction ks as [|k ks IH]; intros db t Hok Ht Hnd Hin.
  - exists t. split_and!; [done| |constructor]. intros j. by rewrite decide_False by set_solver.
  - inversion Hnd as [|? ? Hk Hnd']; subst. inversion Hin as [|? ? [r Hr] Hin']; subst.
    destruct (delete_request_step res db t k r Hok Ht Hr) as [Hdb Hst].
    pose proof (handle_ready db (delete_request res k) Hok) as Hok1.
    rewrite fmap_cons. cbn [serve].
    destruct (handle db (delete_request res k)) as [db1 resp]. cbn [fst snd] in *. subst db1.
    destruct (IH (set_table res db (delete_row k t)) (delete_row k t) Hok1 (table_of_set _ _ _) Hnd')
      as (t' & Ht' & Hrows & Hall).
    { apply Forall_forall. intros j Hj. simpl. rewrite lookup_delete_ne.
      - by eapply Forall_forall in Hin'; [|exact Hj].
      - intros ->. apply Hk. by apply list_elem_of_In. }
    destruct (serve _ _) as [db2 rs]. exists t'. split_and!; [done| |by constructor].
    intros j. rewrite Hrows. cbn [rows delete_row].
    destruct (decide (j ∈ ks)), (decide (j ∈ k :: ks)); try done; try set_solver.
    + assert (j = k) as -> by set_solver. by rewrite lookup_delete_eq.
    + rewrite lookup_delete_ne; [done|]. set_solver.
Qed.

(** ** Liveness of deletion *)

(** (C15) From every state the server reaches (create_all, then any
    sequence of requests), a client can empty any table: the [DELETE]
    requests of the ids the table holds, sent one after the other, are
    all answered 200 and leave that table with no rows. *)
Theorem drain_table reqs res :
  exists t, table_of res (fst (serve start reqs)) = Some t /\
  exists t',
    table_of res (fst (serve (fst (serve start reqs)) (delete_requests res t))) = Some t' /\
    rows t' = ∅ /\
    Forall (fun r => status r = 200%Z) (snd (serve (fst (serve start reqs)) (delete_requests res t))).
Proof.
  pose proof (serve_ready_from start reqs start_ready) as Hok.
  destruct (Hok res) as (t & Ht & _). exists t. split; [done|].
  destruct (serve_deletes res _ t (fst <$> map_to_list (rows t)) Hok Ht) as (t' & Ht' & Hrows & Hall).
  - apply NoDup_fst_map_to_list.
  - apply Forall_forall. intros k Hk.
    apply list_elem_of_In, list_elem_of_fmap in Hk as [[k' r] [-> Hkr]].
    apply elem_of_map_to_list in Hkr. by exists r.
  - exists t'. unfold delete_requests. split_and!; [done| |done].
    apply map_eq. intros j. rewrite Hrows, lookup_empty. case_decide as Hj; [done|].
    apply eq_None_not_Some. intros [r Hr]. apply Hj, list_elem_of_fmap.
    exists (j, r). split; [done|]. by apply elem_of_map_to_list.
Qed.
